(** * usellm: the request dispatcher of [createLLMService.ts]

    A shallow embedding of [packages/usellm/src/createLLMService.ts]: the
    [LLMService] class with its template registry, [prepareChatBody], the
    dispatcher [handle] and the four upstream adapters [chat], [embed],
    [transcribe] and [speak].

    Conventions of the embedding.
    - An optional property ([x?: T]) of a request is an [option]: [None] is
      the absent property ([undefined]). The optional properties of a
      template, which is spread into another object, are [Optional]: absent,
      held as [undefined], or held with a value.
    - A [throw] (or a rejected promise) is the [Throw] outcome; [await] is
      sequencing in the monad [M], whose state is the log of the calls made
      through the injected [fetcher].
    - JavaScript numbers are only stored and copied by this code, never
      computed with; they are rationals ([Q]) here.
    - The argument of [JSON.stringify] is kept as a structured value. *)

From Stdlib Require Import ZArith QArith String Ascii List.
From stdpp Require Import base option list strings gmap pretty.
From Equations.Prop Require Import Equations Logic.
Import ListNotations.

Local Open Scope string_scope.
Local Open Scope list_scope.
#[local] Arguments String.append !_ _ / : simpl nomatch.

(** ** JavaScript values, exceptions and truthiness *)

Definition number := Q.

(** A value produced by [JSON.parse] (or about to go through
    [JSON.stringify]); [JUndefined] is a property that is not there. *)
#[warnings="-register-all"]
Inductive JsValue :=
| JUndefined
| JNull
| JBool (b : bool)
| JNumber (n : number)
| JString (s : string)
| JArray (items : list JsValue)
| JObject (props : list (string * JsValue)).

(** What a [throw] carries. *)
Inductive Thrown :=
| ErrorResponse (message : string) (status : Z)
| Error (message : string)
| TypeError (message : string)
| Rejected (reason : string).

Definition message_of (e : Thrown) : string :=
  match e with
  | ErrorResponse m _ | Error m | TypeError m | Rejected m => m
  end.

Definition status_of (e : Thrown) : option Z :=
  match e with
  | ErrorResponse _ s => Some s
  | _ => None
  end.

(** Modelled from the spec: [makeErrorResponse] of [./utils], which is not
    among the sources; the spec describes its result as "an error object with
    a message and numeric status code". *)
Definition makeErrorResponse (message : string) (status : Z) : Thrown :=
  ErrorResponse message status.

Inductive Outcome (A : Type) :=
| Return (a : A)
| Throw (e : Thrown).
Arguments Return {A} a.
Arguments Throw {A} e.

(** [if (s)] on a [string | undefined]: the empty string and [undefined] are
    falsy. *)
Definition truthy_string (s : option string) : bool :=
  match s with
  | Some s => negb (String.eqb s "")
  | None => false
  end.

(** [if (b)] on a [boolean | undefined]. *)
Definition truthy_bool (b : option bool) : bool :=
  match b with
  | Some true => true
  | _ => false
  end.

(** [a || ""] on a [string | undefined]. *)
Definition or_empty (s : option string) : string :=
  if truthy_string s then default "" s else "".

(** ** The data model *)

(** [OpenAIMessage] (declared in [./utils]). *)
Record OpenAIMessage := {
  role : string;
  content : string;
  user : option string;
}.

(** An optional property of an object that is spread into another one:
    the object may lack the property, hold it with the value [undefined]
    (which TypeScript allows for [x?: T]), or hold it with a value. The
    spread copies the property in the last two cases. *)
Inductive Optional (A : Type) :=
| Absent
| Undefined
| Given (v : A).
Arguments Absent {A}.
Arguments Undefined {A}.
Arguments Given {A} v.

Record LLMServiceTemplate := {
  id : string;
  systemPrompt : Optional string;
  userPrompt : Optional string;
  model : Optional string;
  temperature : Optional number;
  top_p : Optional number;
  n : Optional number;
  max_tokens : Optional number;
  presence_penalty : Optional number;
  frequency_penalty : Optional number;
  logit_bias : Optional number;
}.

(** The object a spread builds: every property of [LLMServiceTemplate],
    [id] included, may be missing from it. *)
Record SpreadTemplate := {
  sp_id : option string;
  sp_systemPrompt : option string;
  sp_userPrompt : option string;
  sp_model : option string;
  sp_temperature : option number;
  sp_top_p : option number;
  sp_n : option number;
  sp_max_tokens : option number;
  sp_presence_penalty : option number;
  sp_frequency_penalty : option number;
  sp_logit_bias : option number;
}.

(** [const defaultTemplate = { model: "gpt-3.5-turbo", max_tokens: 200,
    temperature: 0.8 }] *)
Definition defaultTemplate : SpreadTemplate := {|
  sp_id := None;
  sp_systemPrompt := None;
  sp_userPrompt := None;
  sp_model := Some "gpt-3.5-turbo";
  sp_temperature := Some (Qmake 8 10);
  sp_top_p := None;
  sp_n := None;
  sp_max_tokens := Some (Qmake 200 1);
  sp_presence_penalty := None;
  sp_frequency_penalty := None;
  sp_logit_bias := None;
|}.

(** One property of [{...base, ...over}], as it reads afterwards: the later
    spread wins where it has the property, also when it holds it as
    [undefined]. *)
Definition over {A : Type} (later : Optional A) (earlier : option A)
  : option A :=
  match later with
  | Given v => Some v
  | Undefined => None
  | Absent => earlier
  end.

(** [{ ...base, ...(found || {}) }]: [found] is the registry entry, [None]
    when the lookup gave [undefined] (then [{}] is spread, which adds
    nothing). *)
Definition spread (base : SpreadTemplate) (found : option LLMServiceTemplate)
  : SpreadTemplate :=
  match found with
  | None => base
  | Some t => {|
      sp_id := Some (id t);
      sp_systemPrompt := over (systemPrompt t) (sp_systemPrompt base);
      sp_userPrompt := over (userPrompt t) (sp_userPrompt base);
      sp_model := over (model t) (sp_model base);
      sp_temperature := over (temperature t) (sp_temperature base);
      sp_top_p := over (top_p t) (sp_top_p base);
      sp_n := over (n t) (sp_n base);
      sp_max_tokens := over (max_tokens t) (sp_max_tokens base);
      sp_presence_penalty := over (presence_penalty t) (sp_presence_penalty base);
      sp_frequency_penalty := over (frequency_penalty t) (sp_frequency_penalty base);
      sp_logit_bias := over (logit_bias t) (sp_logit_bias base);
    |}
  end.

(** The [inputs] object of a chat request: its values are JavaScript
    primitives. *)
Inductive InputValue :=
| InString (s : string)
| InNumber (z : Z)
| InBool (b : bool).

(** ** Prompt interpolation *)

Module Utils.

(** [value.toString()] *)
Definition toString (v : InputValue) : string :=
  match v with
  | InString s => s
  | InNumber z => pretty z
  | InBool true => "true"
  | InBool false => "false"
  end.

(** Does [s] start with the character [a] twice? *)
Definition doubled (a : ascii) (s : string) : bool :=
  match s with
  | String x (String y _) => Ascii.eqb x a && Ascii.eqb y a
  | _ => false
  end.

Definition after2 (s : string) : string :=
  match s with
  | String _ (String _ r) => r
  | _ => ""
  end.

(** The text up to the first closing pair of braces, and the text after
    that pair. *)
Fixpoint closing (s : string) : option (string * string) :=
  match s with
  | EmptyString => None
  | String c rest =>
      if doubled "}" s then Some ("", after2 s)
      else match closing rest with
           | Some (k, r) => Some (String c k, r)
           | None => None
           end
  end.

(** A double-braced token at the head of [s]: its key and the text that
    follows the token. *)
Definition placeholder (s : string) : option (string * string) :=
  if doubled "{" s then closing (after2 s) else None.

(** One pass over the prompt text, left to right: a token whose key is in
    [data] is replaced by the string form of the value and the pass goes on
    after the token; any other character is copied. *)
Equations? fill (data : gmap string InputValue) (str : string) : string
  by wf (String.length str) lt :=
  fill data EmptyString := EmptyString;
  fill data (String c rest) with inspect (placeholder (String c rest)) := {
    | exist _ (Some (k, r)) Heq with data !! k := {
      | Some v := toString v +:+ fill data r
      | None := String c (fill data rest) }
    | exist _ None _ := String c (fill data rest) }.
Proof.
  assert (shorter : forall s k' r',
             closing s = Some (k', r') -> (String.length r' < String.length s)%nat).
  { induction s as [|d s IH]; intros k' r'; [discriminate|].
    cbn [closing]. destruct (doubled "}" (String d s)).
    - intros [= <- <-]. destruct s; simpl; lia.
    - destruct (closing s) as [[k0 r0]|]; [|discriminate].
      intros [= <- <-]. specialize (IH _ _ eq_refl). simpl. lia. }
  unfold placeholder in Heq.
  destruct (doubled "{" (String c rest)); [|discriminate].
  apply shorter in Heq. destruct rest; simpl in *; lia.
Qed.

(** Modelled from the spec: [fillPrompt] of [./utils], which is not among the
    sources. The spec: "a placeholder written as a double-braced token is
    replaced by the string form of the matching key in the inputs map; a key
    not found leaves the placeholder text unresolved (no error) -- this is a
    pure, side-effect-free string substitution pass over the prompt text."
    A request without [inputs] interpolates over the empty map. *)
Definition fillPrompt (str : string) (data : option (gmap string InputValue))
  : string :=
  fill (default ∅ data) str.

(** A prompt as its author writes it: literal text and placeholders. *)
Inductive Segment :=
| Literal (s : string)
| Placeholder (k : string).

Definition token (k : string) : string := "{{" +:+ k +:+ "}}".

Fixpoint render (segs : list Segment) : string :=
  match segs with
  | [] => ""
  | Literal s :: rest => s +:+ render rest
  | Placeholder k :: rest => token k +:+ render rest
  end.

(** The prompt with every placeholder whose key is in [data] replaced by
    the string form of its value (a string as it is, an integer as its
    decimal numeral, a boolean as [true] or [false]) and every other
    placeholder left as written. *)
Fixpoint interpolated (data : gmap string InputValue) (segs : list Segment)
  : string :=
  match segs with
  | [] => ""
  | Literal s :: rest => s +:+ interpolated data rest
  | Placeholder k :: rest =>
      match data !! k with
      | Some (InString s) => s
      | Some (InNumber z) => pretty z
      | Some (InBool true) => "true"
      | Some (InBool false) => "false"
      | None => token k
      end +:+ interpolated data rest
  end.

(** [s] does not contain the character [a]. *)
Fixpoint lacks (a : ascii) (s : string) : bool :=
  match s with
  | EmptyString => true
  | String c r => negb (Ascii.eqb c a) && lacks a r
  end.

(** Literal text holds no opening brace and a key holds no brace. *)
Definition well_formed (seg : Segment) : bool :=
  match seg with
  | Literal s => lacks "{" s
  | Placeholder k => lacks "{" k && lacks "}" k
  end.

(** No key of the inputs map holds an opening brace. *)
Definition keys_plain (data : gmap string InputValue) : Prop :=
  forall k v, data !! k = Some v -> lacks "{" k = true.

End Utils.

Record LLMServiceChatOptions := {
  chat_messages : option (list OpenAIMessage);
  chat_stream : option bool;
  chat_template : option string;
  chat_inputs : option (gmap string InputValue);
  chat_user : option string;
}.

(** The object literal [preparedBody]. *)
Record PreparedBody := {
  pb_messages : list OpenAIMessage;
  pb_stream : option bool;
  pb_user : option string;
  pb_model : option string;
  pb_temperature : option number;
  pb_top_p : option number;
  pb_n : option number;
  pb_max_tokens : option number;
  pb_presence_penalty : option number;
  pb_frequency_penalty : option number;
  pb_logit_bias : option number;
}.

(** ** Requests, the injected transport and the effects of a call *)

Section Service.

(** Platform types the code only passes around: [Blob], [ReadableStream] and
    the [Request] handed to the authorization predicate. *)
Context {Blob ReadableStream Request : Type}.

Inductive FormValue :=
| FormText (value : string)
| FormFile (file : Blob) (filename : string).

Record VoiceSettings := {
  stability : number;
  similarity_boost : number;
}.

(** [input?: string | string[]] *)
Inductive EmbedInput :=
| InputText (s : string)
| InputTexts (l : list string).

(** The [body] of an outbound call; for the JSON bodies, the object literal
    given to [JSON.stringify]. *)
Inductive FetchBody :=
| ChatJson (preparedBody : PreparedBody)
| EmbedJson (input : option EmbedInput) (user : option string) (model : string)
| SpeakJson (text : option string) (model_id : string)
    (voice_settings : option VoiceSettings)
| FormData (entries : list (string * FormValue)).

Record FetchCall := {
  fetch_url : string;
  fetch_method : string;
  fetch_headers : list (string * string);
  fetch_body : FetchBody;
}.

(** The parts of a [Response] the code reads: [ok], [text()], [json()]
    (which throws on a body that is not JSON) and [blob()]. *)
Record FetchResponse := {
  ok : bool;
  text : string;
  json : Outcome JsValue;
  blob : Blob;
}.

Definition Fetcher := FetchCall -> Outcome FetchResponse.

(** What a request leaves behind: the calls made through the fetcher, oldest
    first, and the bodies written by the [debug] log. *)
Record World := {
  calls : list FetchCall;
  console : list PreparedBody;
}.

Definition M (A : Type) : Type := World -> Outcome A * World.

Definition ret {A} (a : A) : M A := fun w => (Return a, w).
Definition throw {A} (e : Thrown) : M A := fun w => (Throw e, w).
Definition bind {A B} (m : M A) (k : A -> M B) : M B :=
  fun w =>
    match m w with
    | (Return a, w') => k a w'
    | (Throw e, w') => (Throw e, w')
    end.
Definition lift {A} (o : Outcome A) : M A := fun w => (o, w).

Notation "'let*' x ':=' m 'in' k" := (bind m (fun x => k))
  (at level 10, x name, m at level 100, k at level 200).
Notation "m ';;' k" := (bind m (fun _ => k))
  (at level 100, k at level 200, right associativity).

(** The world after one more call through the fetcher. *)
Definition called (c : FetchCall) (w : World) : World :=
  {| calls := calls w ++ [c]; console := console w |}.

(** [await fetcher(url, init)] *)
Definition call_fetcher (fetcher : Fetcher) (c : FetchCall) : M FetchResponse :=
  fun w => (fetcher c, called c w).

(** The world after one more line of the [debug] log. *)
Definition logged (pb : PreparedBody) (w : World) : World :=
  {| calls := calls w; console := console w ++ [pb] |}.

(** [console.log("[LLMService] preparedBody", preparedBody)] *)
Definition console_log (pb : PreparedBody) : M unit :=
  fun w => (Return tt, logged pb w).

(** The imports of [createLLMService.ts] that are not among the sources
    ([./utils] and [./OpenAIStream]) and the [FileReader] of the platform:
    the code is verified for every choice of them. *)
Record Imports := {
  CHAT_COMPLETIONS_API_URL : string;
  EMBEDDINGS_API_URL : string;
  AUDIO_TRANSCRIPTIONS_API_URL : string;
  getTextToSpeechApiUrl : string -> string;
  dataURLToBlob : string -> Outcome Blob;
  fillPrompt : string -> option (gmap string InputValue) -> string;
  OpenAIStream : PreparedBody -> string -> Fetcher -> M ReadableStream;
  readAsDataURL : Blob -> string;
}.

Variable I : Imports.

(** ** The service *)

Record LLMServiceSpeakOptions := {
  speak_text : option string;
  speak_model_id : option string;
  speak_voice_id : option string;
  speak_voice_settings : option VoiceSettings;
}.

Record LLMServiceTranscribeOptions := {
  transcribe_audioUrl : option string;
  transcribe_language : option string;
  transcribe_prompt : option string;
}.

Record LLMServiceEmbedOptions := {
  embed_input : option EmbedInput;
  embed_user : option string;
  embed_model : option string;
}.

(** The JSON body of a request to [handle]: the [$action] tag ([None] when
    the key is not in the body) and the properties the four option
    interfaces read. *)
Record Body := {
  action : option string;
  messages : option (list OpenAIMessage);
  stream : option bool;
  template : option string;
  inputs : option (gmap string InputValue);
  body_user : option string;
  audioUrl : option string;
  language : option string;
  prompt : option string;
  input : option EmbedInput;
  body_model : option string;
  body_text : option string;
  model_id : option string;
  voice_id : option string;
  voice_settings : option VoiceSettings;
}.

Record LLMServiceHandleOptions := {
  body : Body;
  request : option Request;
}.

Inductive LLMServiceHandleResponse :=
| ResultText (result : string)
| ResultJson (result : JsValue)
| ResultStream (result : ReadableStream).

Record LLMService := {
  templates : gmap string LLMServiceTemplate;
  openaiApiKey : string;
  elvenLabsApiKey : string;
  fetcher : Fetcher;
  debug : bool;
  actions : list string;
  isAllowed : LLMServiceHandleOptions -> bool;
}.

(** [this.templates[template.id] = template], for the ids that name an own
    property of the registry object (any id but [__proto__]). *)
Definition registerTemplate (svc : LLMService) (t : LLMServiceTemplate)
  : LLMService := {|
  templates := <[id t := t]> (templates svc);
  openaiApiKey := openaiApiKey svc;
  elvenLabsApiKey := elvenLabsApiKey svc;
  fetcher := fetcher svc;
  debug := debug svc;
  actions := actions svc;
  isAllowed := isAllowed svc;
|}.

(** [{ ...defaultTemplate, ...(this.templates[body.template || ""] || {}) }].
    The registry is read at its own properties: a name inherited from
    [Object.prototype] reads as a function, whose spread adds nothing, the
    same as [{}]. *)
Definition resolveTemplate (svc : LLMService) (b : LLMServiceChatOptions)
  : SpreadTemplate :=
  spread defaultTemplate (templates svc !! or_empty (chat_template b)).

(** [arr.push(x)] *)
Definition push {A : Type} (arr : list A) (x : A) : list A := arr ++ [x].

(** [filledMessages] after the three blocks that push to it: the system
    prompt and the user prompt under their [if], then
    [body.messages.forEach(...)] under [if (body.messages)] (an array, even
    an empty one, is truthy). *)
Definition filledMessages (svc : LLMService) (b : LLMServiceChatOptions)
  : list OpenAIMessage :=
  let t := resolveTemplate svc b in
  let filled := [] in
  let filled :=
    if truthy_string (sp_systemPrompt t)
    then push filled
           {| role := "system";
              content := fillPrompt I (default "" (sp_systemPrompt t)) (chat_inputs b);
              user := None |}
    else filled in
  let filled :=
    if truthy_string (sp_userPrompt t)
    then push filled
           {| role := "user";
              content := fillPrompt I (default "" (sp_userPrompt t)) (chat_inputs b);
              user := None |}
    else filled in
  match chat_messages b with
  | Some l =>
      fold_left
        (fun acc message =>
           push acc {| role := role message;
                       content := content message;
                       user := user message |})
        l filled
  | None => filled
  end.

(** What a template prompt contributes to the conversation: one message of
    the given role holding the interpolated prompt, when the template has the
    prompt (a non-empty string), and nothing otherwise. *)
Definition promptMessage (r : string) (p : option string)
    (data : option (gmap string InputValue)) : list OpenAIMessage :=
  match p with
  | Some text =>
      if String.eqb text "" then []
      else [ {| role := r; content := fillPrompt I text data; user := None |} ]
  | None => []
  end.

(** The same chat request with another [template] property. *)
Definition setTemplate (t : option string) (b : LLMServiceChatOptions)
  : LLMServiceChatOptions := {|
  chat_messages := chat_messages b;
  chat_stream := chat_stream b;
  chat_template := t;
  chat_inputs := chat_inputs b;
  chat_user := chat_user b;
|}.

Definition emptyMessageList : Thrown :=
  makeErrorResponse
    "Empty message list. Please provide at least one message!" 400.

Definition prepareChatBody (svc : LLMService) (b : LLMServiceChatOptions)
  : Outcome PreparedBody :=
  let t := resolveTemplate svc b in
  let filled := filledMessages svc b in
  if Nat.eqb (length filled) 0 then Throw emptyMessageList
  else Return {|
    pb_messages := filled;
    pb_stream := chat_stream b;
    pb_user := chat_user b;
    pb_model := sp_model t;
    pb_temperature := sp_temperature t;
    pb_top_p := sp_top_p t;
    pb_n := sp_n t;
    pb_max_tokens := sp_max_tokens t;
    pb_presence_penalty := sp_presence_penalty t;
    pb_frequency_penalty := sp_frequency_penalty t;
    pb_logit_bias := sp_logit_bias t;
  |}.

(** [async chat(body)] *)
Definition chatCall (svc : LLMService) (pb : PreparedBody) : FetchCall := {|
  fetch_url := CHAT_COMPLETIONS_API_URL I;
  fetch_method := "POST";
  fetch_headers := [ ("Content-Type", "application/json");
                     ("Authorization", "Bearer " +:+ openaiApiKey svc) ];
  fetch_body := ChatJson pb;
|}.

Definition chat (svc : LLMService) (b : LLMServiceChatOptions)
  : M LLMServiceHandleResponse :=
  let* preparedBody := lift (prepareChatBody svc b) in
  (if debug svc then console_log preparedBody else ret tt) ;;
  if truthy_bool (pb_stream preparedBody) then
    let* result := OpenAIStream I preparedBody (openaiApiKey svc) (fetcher svc) in
    ret (ResultStream result)
  else
    let* response := call_fetcher (fetcher svc) (chatCall svc preparedBody) in
    if negb (ok response) then throw (Error (text response))
    else ret (ResultText (text response)).

(** [async embed(options)] *)
Definition embedCall (svc : LLMService) (o : LLMServiceEmbedOptions)
  : FetchCall := {|
  fetch_url := EMBEDDINGS_API_URL I;
  fetch_method := "POST";
  fetch_headers := [ ("Content-Type", "application/json");
                     ("Authorization", "Bearer " +:+ openaiApiKey svc) ];
  fetch_body := EmbedJson (embed_input o) (embed_user o) "text-embedding-ada-002";
|}.

(** [obj[key]] on the properties of an object literal. *)
Fixpoint property (key : string) (props : list (string * JsValue)) : JsValue :=
  match props with
  | [] => JUndefined
  | (k, v) :: rest => if String.eqb k key then v else property key rest
  end.

(** [const { data } = v]: destructuring [null] throws, an object gives its
    property and any other value has no [data]. *)
Definition destructure_data (v : JsValue) : Outcome JsValue :=
  match v with
  | JNull | JUndefined =>
      Throw (TypeError "Cannot destructure property 'data'")
  | JObject props => Return (property "data" props)
  | _ => Return JUndefined
  end.

Definition embed (svc : LLMService) (o : LLMServiceEmbedOptions)
  : M LLMServiceHandleResponse :=
  let* response := call_fetcher (fetcher svc) (embedCall svc o) in
  if negb (ok response) then throw (Error (text response))
  else
    let* parsed := lift (json response) in
    let* data := lift (destructure_data parsed) in
    ret (ResultJson (JObject [ ("embeddings", data) ])).

(** [async transcribe(options)] *)
Definition transcribeForm (audioBlob : Blob) (o : LLMServiceTranscribeOptions)
  : list (string * FormValue) :=
  [ ("file", FormFile audioBlob "recording.wav"); ("model", FormText "whisper-1") ]
  ++ (if truthy_string (transcribe_language o)
      then [ ("language", FormText (default "" (transcribe_language o))) ]
      else [])
  ++ (if truthy_string (transcribe_prompt o)
      then [ ("prompt", FormText (default "" (transcribe_prompt o))) ]
      else []).

Definition transcribe (svc : LLMService) (o : LLMServiceTranscribeOptions)
  : M LLMServiceHandleResponse :=
  if negb (truthy_string (transcribe_audioUrl o)) then
    throw (makeErrorResponse "'audioUrl' is required" 400)
  else
    let* audioBlob := lift (dataURLToBlob I (default "" (transcribe_audioUrl o))) in
    let* response := call_fetcher (fetcher svc) {|
      fetch_url := AUDIO_TRANSCRIPTIONS_API_URL I;
      fetch_method := "POST";
      fetch_headers := [ ("Authorization", "Bearer " +:+ openaiApiKey svc) ];
      fetch_body := FormData (transcribeForm audioBlob o);
    |} in
    if negb (ok response) then throw (Error (text response))
    else ret (ResultText (text response)).

(** [async speak(options)]: the destructuring defaults apply to an absent
    [model_id] or [voice_id]. *)
Definition speakCall (svc : LLMService) (o : LLMServiceSpeakOptions)
  : FetchCall := {|
  fetch_url :=
    getTextToSpeechApiUrl I (default "21m00Tcm4TlvDq8ikWAM" (speak_voice_id o));
  fetch_method := "POST";
  fetch_headers := [ ("Content-Type", "application/json");
                     ("xi-api-key", elvenLabsApiKey svc) ];
  fetch_body := SpeakJson (speak_text o)
                  (default "eleven_monolingual_v1" (speak_model_id o))
                  (speak_voice_settings o);
|}.

Definition speak (svc : LLMService) (o : LLMServiceSpeakOptions)
  : M LLMServiceHandleResponse :=
  let* response := call_fetcher (fetcher svc) (speakCall svc o) in
  if negb (ok response) then throw (Error (text response))
  else
    let base64data := readAsDataURL I (blob response) in
    ret (ResultJson (JObject [ ("audioUrl", JString base64data) ])).

(** The casts [rest as LLMService...Options] of [handle]. *)
Definition asChatOptions (b : Body) : LLMServiceChatOptions := {|
  chat_messages := messages b;
  chat_stream := stream b;
  chat_template := template b;
  chat_inputs := inputs b;
  chat_user := body_user b;
|}.

Definition asTranscribeOptions (b : Body) : LLMServiceTranscribeOptions := {|
  transcribe_audioUrl := audioUrl b;
  transcribe_language := language b;
  transcribe_prompt := prompt b;
|}.

Definition asEmbedOptions (b : Body) : LLMServiceEmbedOptions := {|
  embed_input := input b;
  embed_user := body_user b;
  embed_model := body_model b;
|}.

Definition asSpeakOptions (b : Body) : LLMServiceSpeakOptions := {|
  speak_text := body_text b;
  speak_model_id := model_id b;
  speak_voice_id := voice_id b;
  speak_voice_settings := voice_settings b;
|}.

(** [this.actions.includes($action)] *)
Definition includes (a : string) (l : list string) : bool :=
  existsb (String.eqb a) l.

Definition dquote : string := String (ascii_of_nat 34) EmptyString.

(** The template literal [Action "${$action}" is not supported]. *)
Definition notSupported (a : string) : Thrown :=
  makeErrorResponse ("Action " +:+ dquote +:+ a +:+ dquote +:+ " is not supported") 400.

Definition notAllowed : Thrown := makeErrorResponse "Request not allowed" 405.

Definition keyRequired : Thrown :=
  makeErrorResponse "OpenAI API key is required." 400.

Definition actionExpected : Thrown :=
  makeErrorResponse "`handle` expects a key $action in the body" 400.

(** [async handle({ body, request })] *)
Definition handle (svc : LLMService) (opts : LLMServiceHandleOptions)
  : M LLMServiceHandleResponse :=
  if negb (isAllowed svc opts) then throw notAllowed
  else if String.eqb (openaiApiKey svc) "" then throw keyRequired
  else
    match action (body opts) with
    | None => throw actionExpected
    | Some a =>
        let rest := body opts in
        if Nat.ltb 0 (length (actions svc)) && negb (includes a (actions svc))
        then throw (notSupported a)
        else if String.eqb a "chat" then chat svc (asChatOptions rest)
        else if String.eqb a "transcribe" then
          transcribe svc (asTranscribeOptions rest)
        else if String.eqb a "embed" then embed svc (asEmbedOptions rest)
        else if String.eqb a "speak" then speak svc (asSpeakOptions rest)
        else throw (notSupported a)
    end.

End Service.

(** ** A concrete service for the worked examples

    Stand-ins for the imports that are not among the sources; the theorems
    below hold for every choice of them. *)

Definition sampleImports : @Imports string (list string) := {|
  CHAT_COMPLETIONS_API_URL := "https://api.openai.com/v1/chat/completions";
  EMBEDDINGS_API_URL := "https://api.openai.com/v1/embeddings";
  AUDIO_TRANSCRIPTIONS_API_URL := "https://api.openai.com/v1/audio/transcriptions";
  getTextToSpeechApiUrl :=
    fun voice_id => "https://api.elevenlabs.io/v1/text-to-speech/" +:+ voice_id;
  dataURLToBlob := fun url => Return url;
  fillPrompt := Utils.fillPrompt;
  OpenAIStream := fun _ _ _ => ret [];
  readAsDataURL := fun b => "data:audio/mpeg;base64," +:+ b;
|}.

Definition sampleResponse (success : bool) (payload : string) (parsed : JsValue)
  : @FetchResponse string := {|
  ok := success;
  text := payload;
  json := Return parsed;
  blob := payload;
|}.

(** A service in the shape [createLLMService] builds it, with
    [Request := unit]. *)
Definition sampleService (openai eleven : string) (allow : list string)
    (allowed : bool) (upstream : @FetchResponse string)
  : @LLMService string unit := {|
  templates := ∅;
  openaiApiKey := openai;
  elvenLabsApiKey := eleven;
  fetcher := fun _ => Return upstream;
  debug := false;
  actions := allow;
  isAllowed := fun _ => allowed;
|}.

Definition emptyBody : Body := {|
  action := None;
  messages := None;
  stream := None;
  template := None;
  inputs := None;
  body_user := None;
  audioUrl := None;
  language := None;
  prompt := None;
  input := None;
  body_model := None;
  body_text := None;
  model_id := None;
  voice_id := None;
  voice_settings := None;
|}.

Definition sampleRequest (b : Body) : @LLMServiceHandleOptions unit :=
  {| body := b; request := None |}.

Definition freshWorld : @World string := {| calls := []; console := [] |}.

(** A successful upstream answer and a failed one. *)
Definition upstreamOk : @FetchResponse string :=
  sampleResponse true "audio-bytes"
    (JObject [ ("object", JString "list");
               ("data", JArray [ JObject [ ("index", JNumber (Qmake 0 1)) ] ]) ]).

Definition upstreamDenied : @FetchResponse string :=
  sampleResponse false "Incorrect API key provided" JNull.

Definition speakBody (words : string) : Body := {|
  action := Some "speak";
  messages := None;
  stream := None;
  template := None;
  inputs := None;
  body_user := None;
  audioUrl := None;
  language := None;
  prompt := None;
  input := None;
  body_model := None;
  body_text := Some words;
  model_id := None;
  voice_id := None;
  voice_settings := None;
|}.

Definition embedBody (words : string) (requested : option string) : Body := {|
  action := Some "embed";
  messages := None;
  stream := None;
  template := None;
  inputs := None;
  body_user := None;
  audioUrl := None;
  language := None;
  prompt := None;
  input := Some (InputText words);
  body_model := requested;
  body_text := None;
  model_id := None;
  voice_id := None;
  voice_settings := None;
|}.

Definition chatOptions (msgs : option (list OpenAIMessage))
    (tpl : option string) (data : option (gmap string InputValue))
  : LLMServiceChatOptions := {|
  chat_messages := msgs;
  chat_stream := None;
  chat_template := tpl;
  chat_inputs := data;
  chat_user := None;
|}.

Definition sampleTemplate (name : string) (sys : option string)
  : LLMServiceTemplate := {|
  id := name;
  systemPrompt := match sys with Some p => Given p | None => Absent end;
  userPrompt := Absent;
  model := Absent;
  temperature := Absent;
  top_p := Absent;
  n := Absent;
  max_tokens := Absent;
  presence_penalty := Absent;
  frequency_penalty := Absent;
  logit_bias := Absent;
|}.

(** ** Building a service *)

Section Construction.
Context {Blob Request : Type}.

(** [CreateLLMServiceOptions]: every option may be left out. *)
Record CreateLLMServiceOptions := {
  opt_openaiApiKey : option string;
  opt_elvenLabsApiKey : option string;
  opt_actions : option (list string);
  opt_fetcher : option (@Fetcher Blob);
  opt_templates : option (gmap string LLMServiceTemplate);
  opt_debug : option bool;
  opt_isAllowed : option (@LLMServiceHandleOptions Request -> bool);
}.

(** [createLLMService(options)], that is [new LLMService(options)]: the
    destructuring defaults of the constructor fill the options left out.
    [fetch] is the platform's global [fetch]. *)
Definition createLLMService (fetch : @Fetcher Blob)
    (options : CreateLLMServiceOptions) : @LLMService Blob Request := {|
  templates := default ∅ (opt_templates options);
  openaiApiKey := default "" (opt_openaiApiKey options);
  elvenLabsApiKey := default "" (opt_elvenLabsApiKey options);
  fetcher := default fetch (opt_fetcher options);
  debug := default false (opt_debug options);
  actions := default [] (opt_actions options);
  isAllowed := default (fun _ => true) (opt_isAllowed options);
|}.

(** The same service with another ElevenLabs credential, another OpenAI
    credential, or another [debug] flag. *)
Definition withElevenLabsKey (key : string) (svc : @LLMService Blob Request)
  : @LLMService Blob Request := {|
  templates := templates svc;
  openaiApiKey := openaiApiKey svc;
  elvenLabsApiKey := key;
  fetcher := fetcher svc;
  debug := debug svc;
  actions := actions svc;
  isAllowed := isAllowed svc;
|}.

Definition withOpenaiKey (key : string) (svc : @LLMService Blob Request)
  : @LLMService Blob Request := {|
  templates := templates svc;
  openaiApiKey := key;
  elvenLabsApiKey := elvenLabsApiKey svc;
  fetcher := fetcher svc;
  debug := debug svc;
  actions := actions svc;
  isAllowed := isAllowed svc;
|}.

Definition withDebug (flag : bool) (svc : @LLMService Blob Request)
  : @LLMService Blob Request := {|
  templates := templates svc;
  openaiApiKey := openaiApiKey svc;
  elvenLabsApiKey := elvenLabsApiKey svc;
  fetcher := fetcher svc;
  debug := flag;
  actions := actions svc;
  isAllowed := isAllowed svc;
|}.

End Construction.

(** The four action tags [handle] has a handler for. *)
Definition handledActions : list string :=
  [ "chat"; "transcribe"; "embed"; "speak" ].

(** ** The documentation pager ([getPagerForDoc] and [flatten])

    [NavItem] and [NavItemWithChildren] are declared in [@/types/nav], which
    is not among the sources; the code reads [href] and [items] of a link
    and the page shows its [title]. *)

#[warnings="-register-all"]
Inductive NavItemWithChildren :=
| NavItem (title : string) (href : option string)
    (items : option (list NavItemWithChildren)).

Definition nav_title (link : NavItemWithChildren) : string :=
  match link with NavItem t _ _ => t end.

Definition nav_href (link : NavItemWithChildren) : option string :=
  match link with NavItem _ h _ => h end.

Definition nav_items (link : NavItemWithChildren)
  : option (list NavItemWithChildren) :=
  match link with NavItem _ _ i => i end.

(** [link.items?.length ? flatten(link.items) : link], as the list that
    [flat.concat] appends: the flattened children of a link that has some,
    the link itself otherwise. *)
Fixpoint flattenLink (link : NavItemWithChildren) : list NavItemWithChildren :=
  match link with
  | NavItem _ _ (Some ((_ :: _) as children)) =>
      (fix reduce (links flat : list NavItemWithChildren) :=
         match links with
         | [] => flat
         | child :: rest => reduce rest (flat ++ flattenLink child)
         end) children []
  | NavItem _ _ _ => [ link ]
  end.

(** A link without children: [link.items?.length] is falsy. *)
Definition isLeaf (link : NavItemWithChildren) : bool :=
  match nav_items link with
  | Some (_ :: _) => false
  | _ => true
  end.

(** [links.reduce((flat, link) => flat.concat(...), [])] *)
Definition flatten (links : list NavItemWithChildren)
  : list NavItemWithChildren :=
  fold_left (fun flat link => flat ++ flattenLink link) links [].

(** What reading [flattenedLinks[i]] gives: [undefined] outside the array,
    else the [null] or the link stored there. *)
Inductive Slot :=
| SlotUndefined
| SlotNull
| SlotLink (link : NavItemWithChildren).

Definition slotAt (arr : list (option NavItemWithChildren)) (i : Z) : Slot :=
  if (i <? 0)%Z then SlotUndefined
  else match nth_error arr (Z.to_nat i) with
       | None => SlotUndefined
       | Some None => SlotNull
       | Some (Some link) => SlotLink link
       end.

(** [arr.findIndex(pred)]: the first index that satisfies [pred], or -1. *)
Fixpoint findIndex {A : Type} (pred : A -> bool) (arr : list A) : Z :=
  match arr with
  | [] => (-1)%Z
  | x :: rest =>
      if pred x then 0%Z
      else let i := findIndex pred rest in
           if (i <? 0)%Z then (-1)%Z else (i + 1)%Z
  end.

(** [doc.slug === link?.href] *)
Definition isActive (slug : string) (link : option NavItemWithChildren) : bool :=
  match link with
  | Some l =>
      match nav_href l with
      | Some h => String.eqb slug h
      | None => false
      end
  | None => false
  end.

Record Pager := {
  prev : Slot;
  next : Slot;
}.

(** [getPagerForDoc(doc)], with [docsConfig.sidebarNav] (not among the
    sources) and [doc.slug] as arguments. *)
Definition getPagerForDoc (sidebarNav : list NavItemWithChildren)
    (slug : string) : Pager :=
  let flattenedLinks := (None :: map Some (flatten sidebarNav)) ++ [ None ] in
  let activeIndex := findIndex (isActive slug) flattenedLinks in
  {| prev := if negb (activeIndex =? 0)%Z
             then slotAt flattenedLinks (activeIndex - 1)
             else SlotNull;
     next := if negb (activeIndex =? Z.of_nat (length flattenedLinks) - 1)%Z
             then slotAt flattenedLinks (activeIndex + 1)
             else SlotNull |}.

(** Imports whose [dataURLToBlob] refuses what is not a data URL. *)
Definition strictImports : @Imports string (list string) := {|
  CHAT_COMPLETIONS_API_URL := CHAT_COMPLETIONS_API_URL sampleImports;
  EMBEDDINGS_API_URL := EMBEDDINGS_API_URL sampleImports;
  AUDIO_TRANSCRIPTIONS_API_URL := AUDIO_TRANSCRIPTIONS_API_URL sampleImports;
  getTextToSpeechApiUrl := getTextToSpeechApiUrl sampleImports;
  dataURLToBlob :=
    fun url => if String.prefix "data:" url then Return url
               else Throw (TypeError "Invalid data URL");
  fillPrompt := Utils.fillPrompt;
  OpenAIStream := fun _ _ _ => ret [];
  readAsDataURL := readAsDataURL sampleImports;
|}.

Definition transcribeBody (url : option string) (lang : option string) : Body := {|
  action := Some "transcribe";
  messages := None;
  stream := None;
  template := None;
  inputs := None;
  body_user := None;
  audioUrl := url;
  language := lang;
  prompt := None;
  input := None;
  body_model := None;
  body_text := None;
  model_id := None;
  voice_id := None;
  voice_settings := None;
|}.

Definition taggedBody (tag : option string) : Body := {|
  action := tag;
  messages := None;
  stream := None;
  template := None;
  inputs := None;
  body_user := None;
  audioUrl := None;
  language := None;
  prompt := None;
  input := None;
  body_model := None;
  body_text := None;
  model_id := None;
  voice_id := None;
  voice_settings := None;
|}.

Definition chatBody (msgs : list OpenAIMessage) (tpl : option string) : Body := {|
  action := Some "chat";
  messages := Some msgs;
  stream := None;
  template := tpl;
  inputs := None;
  body_user := None;
  audioUrl := None;
  language := None;
  prompt := None;
  input := None;
  body_model := None;
  body_text := None;
  model_id := None;
  voice_id := None;
  voice_settings := None;
|}.

Definition hello : OpenAIMessage :=
  {| role := "user"; content := "hi"; user := None |}.

Definition noOptions : @CreateLLMServiceOptions string unit := {|
  opt_openaiApiKey := None;
  opt_elvenLabsApiKey := None;
  opt_actions := None;
  opt_fetcher := None;
  opt_templates := None;
  opt_debug := None;
  opt_isAllowed := None;
|}.

Definition keyOnly (key : string) : @CreateLLMServiceOptions string unit := {|
  opt_openaiApiKey := Some key;
  opt_elvenLabsApiKey := None;
  opt_actions := None;
  opt_fetcher := None;
  opt_templates := None;
  opt_debug := None;
  opt_isAllowed := None;
|}.

(** A navigation with one section of two pages between two pages. *)
Definition pageIntro : NavItemWithChildren :=
  NavItem "Introduction" (Some "/docs") None.
Definition pageInstall : NavItemWithChildren :=
  NavItem "Installation" (Some "/docs/installation") (Some []).
Definition pageHook : NavItemWithChildren :=
  NavItem "useLLM" (Some "/docs/api/usellm") None.
Definition pageFaq : NavItemWithChildren :=
  NavItem "FAQ" (Some "/docs/faq") None.
Definition sampleNav : list NavItemWithChildren :=
  [ pageIntro;
    NavItem "API" None (Some [ pageInstall; pageHook ]);
    pageFaq ].

(** * Properties *)

(** ** Interpolation *)

Section Interpolation.
Import Utils.

Lemma append_assoc (a b c : string) : (a +:+ b) +:+ c = a +:+ (b +:+ c).
Proof. induction a as [|x a IH]; simpl; [reflexivity|]. now rewrite IH. Qed.

(** The defining equation of the pass, without the proof it carries. *)
Lemma fill_step data c rest :
  fill data (String c rest) =
  match placeholder (String c rest) with
  | Some (k, r) =>
      match data !! k with
      | Some v => toString v +:+ fill data r
      | None => String c (fill data rest)
      end
  | None => String c (fill data rest)
  end.
Proof.
  rewrite fill_equation_2.
  change (placeholder (String c rest))
    with (proj1_sig (inspect (placeholder (String c rest)))) at 2.
  destruct (inspect (placeholder (String c rest))) as [[[k r]|] e];
    simp fill; [|reflexivity].
  simpl. destruct (data !! k); reflexivity.
Qed.

Lemma closing_step c s :
  closing (String c s) =
  if doubled "}" (String c s) then Some ("", after2 (String c s))
  else match closing s with
       | Some (k, r) => Some (String c k, r)
       | None => None
       end.
Proof. reflexivity. Qed.

Lemma doubled_app a c d s x :
  doubled a (String c (String d s) +:+ x) = doubled a (String c (String d s)).
Proof. reflexivity. Qed.

Lemma token_append k r :
  token k +:+ r = String "{" (String "{" (k +:+ String "}" (String "}" r))).
Proof. unfold token. simpl. now rewrite append_assoc. Qed.

Lemma placeholder_plain c rest :
  Ascii.eqb c "{" = false -> placeholder (String c rest) = None.
Proof.
  intros H. unfold placeholder, doubled. destruct rest; [reflexivity|].
  now rewrite H.
Qed.

(** Text without an opening brace is copied. *)
Lemma fill_literal data t u :
  lacks "{" t = true -> fill data (t +:+ u) = t +:+ fill data u.
Proof.
  induction t as [|c t IH]; simpl; [reflexivity|].
  intros [Hc Ht]%andb_true_iff. apply negb_true_iff in Hc.
  rewrite fill_step, placeholder_plain by exact Hc. now rewrite IH.
Qed.

Lemma closing_key k r :
  lacks "}" k = true -> closing (k +:+ String "}" (String "}" r)) = Some (k, r).
Proof.
  induction k as [|c k IH]; simpl; [reflexivity|].
  intros [Hc Hk]%andb_true_iff. apply negb_true_iff in Hc.
  rewrite IH by exact Hk.
  destruct (k +:+ String "}" (String "}" r)); [reflexivity|].
  now rewrite Hc.
Qed.

Lemma placeholder_token k r :
  lacks "}" k = true -> placeholder (token k +:+ r) = Some (k, r).
Proof.
  intros Hk. rewrite token_append. unfold placeholder. simpl.
  now apply closing_key.
Qed.

Lemma fill_hit data k v r :
  lacks "}" k = true -> data !! k = Some v ->
  fill data (token k +:+ r) = toString v +:+ fill data r.
Proof.
  intros Hk Hv. pose proof (placeholder_token k r Hk) as Hp.
  rewrite token_append in *. rewrite fill_step, Hp, Hv. reflexivity.
Qed.

Lemma fill_miss data k r :
  lacks "{" k = true -> lacks "}" k = true -> data !! k = None ->
  fill data (token k +:+ r) = token k +:+ fill data r.
Proof.
  intros Ho Hk Hv. pose proof (placeholder_token k r Hk) as Hp.
  rewrite !token_append in *. rewrite fill_step, Hp, Hv. f_equal.
  rewrite fill_step.
  assert (placeholder (String "{" (k +:+ String "}" (String "}" r))) = None) as ->.
  { unfold placeholder, doubled. destruct k as [|c k]; simpl; [reflexivity|].
    simpl in Ho. apply andb_true_iff in Ho as [Hc _]. apply negb_true_iff in Hc.
    now rewrite Hc. }
  f_equal.
  change (String "}" (String "}" r)) with ("}}" +:+ r).
  rewrite <- append_assoc, fill_literal.
  - now rewrite append_assoc.
  - clear -Ho. induction k as [|c k IH]; simpl in *; [reflexivity|].
    apply andb_true_iff in Ho as [-> Hk]. now apply IH.
Qed.

Lemma fill_segments data segs :
  forallb well_formed segs = true ->
  fill data (render segs) = interpolated data segs.
Proof.
  induction segs as [|[s|k] segs IH]; cbn [render interpolated forallb];
    [reflexivity| |]; intros [Hw Hs]%andb_true_iff.
  - rewrite fill_literal by exact Hw. now rewrite IH.
  - apply andb_true_iff in Hw as [Ho Hc].
    destruct (data !! k) as [v|] eqn:Hv.
    + rewrite (fill_hit _ _ v) by assumption. rewrite IH by assumption.
      now destruct v as [s|z|[|]].
    + rewrite fill_miss by assumption. now rewrite IH.
Qed.

(** Without inputs nothing is replaced. *)
Lemma fill_empty s : fill ∅ s = s.
Proof.
  induction s as [|c s IH]; [reflexivity|].
  rewrite fill_step. destruct (placeholder (String c s)) as [[k r]|];
    rewrite ?lookup_empty, IH; reflexivity.
Qed.

Lemma closing_app a k r x :
  closing a = Some (k, r) -> closing (a +:+ x) = Some (k, r +:+ x).
Proof.
  revert k r. induction a as [|c a IH]; intros k r; [discriminate|].
  destruct a as [|d a]; [discriminate|].
  change (String c (String d a) +:+ x) with (String c (String d a +:+ x)).
  rewrite !(closing_step c).
  change (doubled "}" (String c (String d a +:+ x)))
    with (doubled "}" (String c (String d a))).
  destruct (doubled "}" (String c (String d a))).
  - intros [= <- <-]. reflexivity.
  - destruct (closing (String d a)) as [[k0 r0]|] eqn:E; [|discriminate].
    intros [= <- <-]. now rewrite (IH _ _ eq_refl).
Qed.

(** A key that starts in [a] and closes beyond it, after an opening brace,
    holds that brace. *)
Lemma closing_across a y k r :
  closing a = None -> closing (a +:+ String "{" y) = Some (k, r) ->
  lacks "{" k = false.
Proof.
  revert k r. induction a as [|c a IH]; intros k r.
  - intros _. change ("" +:+ String "{" y) with (String "{" y).
    rewrite closing_step.
    replace (doubled "}" (String "{" y)) with false by (now destruct y).
    destruct (closing y) as [[k0 r0]|]; [|discriminate].
    intros [= <- <-]. reflexivity.
  - change (String c a +:+ String "{" y) with (String c (a +:+ String "{" y)).
    rewrite !(closing_step c).
    assert (doubled "}" (String c a) = false ->
            doubled "}" (String c (a +:+ String "{" y)) = false) as Hd.
    { destruct a as [|d a]; [|exact (fun H => H)].
      intros _. simpl. apply andb_false_r. }
    destruct (doubled "}" (String c a)); [discriminate|]. rewrite Hd by reflexivity.
    destruct (closing a) as [[k0 r0]|] eqn:E; [discriminate|]. intros _.
    destruct (closing (a +:+ String "{" y)) as [[k1 r1]|] eqn:E1; [|discriminate].
    intros [= <- <-]. simpl. rewrite (IH _ _ eq_refl eq_refl). apply andb_false_r.
Qed.

Lemma placeholder_app c a k r x :
  placeholder (String c a) = Some (k, r) ->
  placeholder (String c a +:+ x) = Some (k, r +:+ x).
Proof.
  unfold placeholder. destruct a as [|d a]; [discriminate|].
  rewrite doubled_app. destruct (doubled "{" (String c (String d a))); [|discriminate].
  apply closing_app.
Qed.

Lemma placeholder_across c a z k r :
  placeholder (String c a) = None ->
  placeholder (String c a +:+ String "{" (String "{" z)) = Some (k, r) ->
  lacks "{" k = false.
Proof.
  unfold placeholder. destruct a as [|d a].
  - intros _.
    change (String c "" +:+ String "{" (String "{" z))
      with (String c (String "{" (String "{" z))).
    destruct (doubled "{" (String c (String "{" (String "{" z)))); [|discriminate].
    apply (closing_across "" z). reflexivity.
  - rewrite doubled_app. destruct (doubled "{" (String c (String d a))); [|discriminate].
    apply closing_across.
Qed.

(** The pass over the text before a token does not depend on what follows. *)
Lemma fill_before_token data a z :
  keys_plain data ->
  fill data (a +:+ String "{" (String "{" z)) =
  fill data a +:+ fill data (String "{" (String "{" z)).
Proof.
  intros Hkeys. funelim (fill data a); [reflexivity|..];
    change (String c rest +:+ String "{" (String "{" z))
      with (String c (rest +:+ String "{" (String "{" z)));
    rewrite fill_step;
    change (String c (rest +:+ String "{" (String "{" z)))
      with (String c rest +:+ String "{" (String "{" z)).
  all: match goal with
       | E : placeholder (String _ _) = _ |- _ => rename E into Hp
       end.
  all: match goal with
       | IH : forall z, keys_plain _ -> _ |- _ => rename IH into IHfill
       end.
  all: try match goal with
       | E : _ !! _ = _ |- _ => rename E into Hlook
       end.
  - destruct (placeholder (String c rest +:+ _)) as [[k' r']|] eqn:Hq.
    + pose proof (placeholder_across _ _ _ _ _ Hp Hq) as Hk.
      destruct (data !! k') as [v|] eqn:Hv.
      * apply Hkeys in Hv. congruence.
      * now rewrite IHfill.
    + now rewrite IHfill.
  - rewrite (placeholder_app _ _ _ _ _ Hp), Hlook.
    rewrite IHfill by assumption. now rewrite append_assoc.
  - rewrite (placeholder_app _ _ _ _ _ Hp), Hlook. now rewrite IHfill.
Qed.

(** Any occurrence of a token, whatever surrounds it, is replaced when its
    key is in the inputs and copied when it is not. *)
Lemma fill_occurrence data a k b :
  keys_plain data -> lacks "{" k = true -> lacks "}" k = true ->
  fill data (a +:+ token k +:+ b) =
  fill data a +:+
  match data !! k with Some v => toString v | None => token k end +:+
  fill data b.
Proof.
  intros Hkeys Ho Hc. rewrite (token_append k b), fill_before_token by assumption.
  rewrite <- token_append. f_equal.
  destruct (data !! k) as [v|] eqn:Hv.
  - now apply fill_hit.
  - rewrite fill_miss by assumption. reflexivity.
Qed.

(** C7, as amended. Interpolation replaces a placeholder whose key is in
    the inputs by the string form of its value (a string as it is, an integer
    as its decimal numeral, a boolean as [true] or [false]) and leaves a
    placeholder whose key is absent as written, where keys hold no brace.
    For a prompt made of literal text without an opening brace and of
    placeholders whose keys hold no brace this gives the whole output, for
    every inputs map; and when no key of the inputs holds an opening brace,
    every occurrence of a placeholder whose key holds no brace, anywhere in
    any prompt string, is treated so, the text before and after it being
    interpolated on its own. [fillPrompt] is a total function to strings: it
    raises no error and has no effect. *)
Theorem fillPrompt_interpolates (inputs : option (gmap string InputValue)) :
  (forall segs : list Segment,
     forallb well_formed segs = true ->
     fillPrompt (render segs) inputs = interpolated (default ∅ inputs) segs) /\
  (keys_plain (default ∅ inputs) ->
   forall before k after : string,
     lacks "{" k = true -> lacks "}" k = true ->
     fillPrompt (before +:+ token k +:+ after) inputs =
     fillPrompt before inputs +:+
     match default ∅ inputs !! k with
     | Some (InString s) => s
     | Some (InNumber z) => pretty z
     | Some (InBool true) => "true"
     | Some (InBool false) => "false"
     | None => token k
     end +:+
     fillPrompt after inputs).
Proof.
  unfold fillPrompt. split.
  - intros segs Hwf. now apply fill_segments.
  - intros Hkeys before k after Ho Hc.
    rewrite fill_occurrence by assumption.
    now destruct (default ∅ inputs !! k) as [[s|z|[|]]|].
Qed.

Lemma fillPrompt_interpolates_witness :
  let inputs := Some (<["name" := InString "Bot"]>
                        (<["n" := InNumber 3]> (<["ok" := InBool true]> ∅))) in
  fillPrompt "Hi {{name}}, {{n}} new from {{sender}}: {{ok}}, {{name}}!" inputs
  = "Hi Bot, 3 new from {{sender}}: true, Bot!" /\
  fillPrompt "{ {{{{name}}}} {{sender}}" inputs
  = fillPrompt "{ {{" inputs +:+ "Bot" +:+ fillPrompt "}} {{sender}}" inputs.
Proof.
  intros inputs.
  destruct (fillPrompt_interpolates inputs) as [Hsegs Hany]. split.
  - refine (eq_trans
              (Hsegs [ Literal "Hi "; Placeholder "name"; Literal ", ";
                       Placeholder "n"; Literal " new from ";
                       Placeholder "sender"; Literal ": "; Placeholder "ok";
                       Literal ", "; Placeholder "name"; Literal "!" ] eq_refl)
              _).
    vm_compute. reflexivity.
  - assert (keys_plain (default ∅ inputs)) as Hkeys.
    { intros k v. subst inputs. simpl.
      intros [[<- _]|[_ [[<- _]|[_ [[<- _]|[_ H]]%lookup_insert_Some]]%lookup_insert_Some]]%lookup_insert_Some;
        [reflexivity|reflexivity|reflexivity|now rewrite lookup_empty in H]. }
    apply (Hany Hkeys "{ {{" "name" "}} {{sender}}"); reflexivity.
Defined.

(** Two placeholders that overlap cannot both be replaced: with the keys
    [a {{b] and [b] in the inputs, the prompt that is the placeholder of the
    first key also holds the placeholder of the second, and the pass replaces
    the first only. And a key that ends in a closing brace is not found,
    the pass taking the key of a placeholder to end at the first pair of
    closing braces. *)
Lemma fillPrompt_overlap_counterexample :
  let inputs := Some (<["a {{b" := InString "X"]> (<["b" := InString "Y"]> ∅)) in
  default ∅ inputs !! "b" = Some (InString "Y") /\
  "{{a {{b}}" = "{{a " +:+ token "b" +:+ "" /\
  fillPrompt "{{a {{b}}" inputs = "X" /\
  fillPrompt "{{a {{b}}" inputs
    <> fillPrompt "{{a " inputs +:+ "Y" +:+ fillPrompt "" inputs /\
  fillPrompt (token "a}") (Some {[ "a}" := InString "X" ]}) = token "a}".
Proof.
  intros inputs. split; [reflexivity|]. split; [reflexivity|].
  split; [vm_compute; reflexivity|]. split; [|vm_compute; reflexivity].
  vm_compute. discriminate.
Qed.

Example fillPrompt_sample :
  fillPrompt "Hi {{name}}, {{n}} new from {{sender}}: {{name}}!"
    (Some (<["name" := InString "Bot"]> (<["n" := InNumber 3]> ∅)))
  = "Hi Bot, 3 new from {{sender}}: Bot!".
Proof. vm_compute. reflexivity. Qed.

Example fillPrompt_nested_braces :
  fillPrompt "{ {{{{name}}}} {{sender}}" (Some {[ "name" := InString "Bot" ]})
  = "{ {{Bot}} {{sender}}".
Proof. vm_compute. reflexivity. Qed.

Example fillPrompt_no_inputs :
  fillPrompt "You are {{name}}" None = "You are {{name}}".
Proof. apply fill_empty. Qed.

End Interpolation.

(** ** The chat body *)

Section ChatBody.
Context {Blob ReadableStream Request : Type}.
Variable I : @Imports Blob ReadableStream.
Implicit Types (svc : @LLMService Blob Request) (b : LLMServiceChatOptions).

Lemma fold_left_push {A B : Type} (f : A -> B) (l : list A) (init : list B) :
  fold_left (fun acc x => push acc (f x)) l init = init ++ map f l.
Proof.
  revert init. induction l as [|x l IH]; intros init; simpl.
  - now rewrite app_nil_r.
  - rewrite IH. unfold push. now rewrite <- app_assoc.
Qed.

Lemma copy_verbatim (l : list OpenAIMessage) :
  map (fun m => {| role := role m; content := content m; user := user m |}) l = l.
Proof. induction l as [|[r c u] l IH]; simpl; [reflexivity|]. now rewrite IH. Qed.

Lemma truthy_string_prompt (r : string) (p : option string) data :
  (if truthy_string p
   then push []
          {| role := r; content := fillPrompt I (default "" p) data; user := None |}
   else []) = promptMessage I r p data.
Proof.
  destruct p as [text|]; simpl; [|reflexivity].
  destruct (String.eqb text ""); reflexivity.
Qed.

Lemma filledMessages_order svc b :
  filledMessages I svc b =
  promptMessage I "system" (sp_systemPrompt (resolveTemplate svc b)) (chat_inputs b)
  ++ promptMessage I "user" (sp_userPrompt (resolveTemplate svc b)) (chat_inputs b)
  ++ default [] (chat_messages b).
Proof.
  unfold filledMessages. cbv zeta.
  rewrite <- !truthy_string_prompt.
  set (t := resolveTemplate svc b).
  assert (forall l : list OpenAIMessage,
             match chat_messages b with
             | Some msgs =>
                 fold_left
                   (fun acc message =>
                      push acc {| role := role message;
                                  content := content message;
                                  user := user message |}) msgs l
             | None => l
             end = l ++ default [] (chat_messages b)) as Hexplicit.
  { intros l. destruct (chat_messages b) as [msgs|]; simpl.
    - now rewrite fold_left_push, copy_verbatim.
    - now rewrite app_nil_r. }
  rewrite Hexplicit.
  destruct (truthy_string (sp_systemPrompt t)), (truthy_string (sp_userPrompt t));
    unfold push; simpl; reflexivity.
Qed.

(** C4. The prepared message sequence is, in this order: the interpolated
    system prompt as a system-role message when the resolved template has a
    system prompt; the interpolated user prompt as a user-role message when it
    has a user prompt; then the explicit messages of the request, in their
    order and unchanged (role, content and user id as given, no
    interpolation). [prepareChatBody] returns the body with exactly this
    sequence, unless the sequence is empty. *)
Theorem prepareChatBody_message_order svc b :
  let t := resolveTemplate svc b in
  let ordered :=
    promptMessage I "system" (sp_systemPrompt t) (chat_inputs b)
    ++ promptMessage I "user" (sp_userPrompt t) (chat_inputs b)
    ++ default [] (chat_messages b) in
  filledMessages I svc b = ordered /\
  prepareChatBody I svc b =
    match ordered with
    | [] => Throw emptyMessageList
    | _ :: _ => Return {|
        pb_messages := ordered;
        pb_stream := chat_stream b;
        pb_user := chat_user b;
        pb_model := sp_model t;
        pb_temperature := sp_temperature t;
        pb_top_p := sp_top_p t;
        pb_n := sp_n t;
        pb_max_tokens := sp_max_tokens t;
        pb_presence_penalty := sp_presence_penalty t;
        pb_frequency_penalty := sp_frequency_penalty t;
        pb_logit_bias := sp_logit_bias t;
      |}
    end.
Proof.
  intros t ordered. split; [apply filledMessages_order|].
  unfold prepareChatBody. cbv zeta. rewrite filledMessages_order.
  fold t. fold ordered. destruct ordered; reflexivity.
Qed.

(** C3. When the template id of a chat request does not resolve in the
    registry, the lookup raises nothing and the prepared body holds the fixed
    defaults (model [gpt-3.5-turbo], [max_tokens] 200, [temperature] 0.8) and
    the request's own [messages], [stream] and [user], with nothing taken from
    any registered template; the only failure left is the one for an empty
    message list. *)
Theorem prepareChatBody_unknown_template svc b :
  templates svc !! or_empty (chat_template b) = None ->
  prepareChatBody I svc b =
    match default [] (chat_messages b) with
    | [] => Throw emptyMessageList
    | _ :: _ => Return {|
        pb_messages := default [] (chat_messages b);
        pb_stream := chat_stream b;
        pb_user := chat_user b;
        pb_model := Some "gpt-3.5-turbo";
        pb_temperature := Some (Qmake 8 10);
        pb_top_p := None;
        pb_n := None;
        pb_max_tokens := Some (Qmake 200 1);
        pb_presence_penalty := None;
        pb_frequency_penalty := None;
        pb_logit_bias := None;
      |}
    end.
Proof.
  intros Hunknown. unfold prepareChatBody. cbv zeta.
  rewrite filledMessages_order. unfold resolveTemplate. rewrite Hunknown.
  simpl. destruct (default [] (chat_messages b)); reflexivity.
Qed.

Lemma or_empty_absent : or_empty None = or_empty (Some "").
Proof. reflexivity. Qed.

(** C10. A chat request without a template id and one whose template id is
    the empty string resolve to the same template and prepare the same body;
    so a template registered under the id [""] is the one applied to a chat
    request that supplies no template id: its prompts become the first
    messages of that request and its parameters those of the prepared body,
    the defaults standing in only for the properties the template lacks. *)
Theorem absent_template_id_is_empty_id svc b (t : LLMServiceTemplate) :
  id t = "" ->
  let own := fun (A : Type) (p : Optional A) =>
    match p with
    | Given v => Some v
    | _ => None
    end in
  let ownOr := fun (A : Type) (p : Optional A) (fallback : A) =>
    match p with
    | Given v => Some v
    | Undefined => None
    | Absent => Some fallback
    end in
  let ordered :=
    promptMessage I "system" (own _ (systemPrompt t)) (chat_inputs b)
    ++ promptMessage I "user" (own _ (userPrompt t)) (chat_inputs b)
    ++ default [] (chat_messages b) in
  resolveTemplate svc (setTemplate None b)
    = resolveTemplate svc (setTemplate (Some "") b) /\
  prepareChatBody I svc (setTemplate None b)
    = prepareChatBody I svc (setTemplate (Some "") b) /\
  resolveTemplate (registerTemplate svc t) (setTemplate None b)
    = {| sp_id := Some "";
         sp_systemPrompt := own _ (systemPrompt t);
         sp_userPrompt := own _ (userPrompt t);
         sp_model := ownOr _ (model t) "gpt-3.5-turbo";
         sp_temperature := ownOr _ (temperature t) (Qmake 8 10);
         sp_top_p := own _ (top_p t);
         sp_n := own _ (n t);
         sp_max_tokens := ownOr _ (max_tokens t) (Qmake 200 1);
         sp_presence_penalty := own _ (presence_penalty t);
         sp_frequency_penalty := own _ (frequency_penalty t);
         sp_logit_bias := own _ (logit_bias t) |} /\
  prepareChatBody I (registerTemplate svc t) (setTemplate None b)
    = match ordered with
      | [] => Throw emptyMessageList
      | _ :: _ => Return {|
          pb_messages := ordered;
          pb_stream := chat_stream b;
          pb_user := chat_user b;
          pb_model := ownOr _ (model t) "gpt-3.5-turbo";
          pb_temperature := ownOr _ (temperature t) (Qmake 8 10);
          pb_top_p := own _ (top_p t);
          pb_n := own _ (n t);
          pb_max_tokens := ownOr _ (max_tokens t) (Qmake 200 1);
          pb_presence_penalty := own _ (presence_penalty t);
          pb_frequency_penalty := own _ (frequency_penalty t);
          pb_logit_bias := own _ (logit_bias t);
        |}
      end.
Proof.
  intros Hid own ownOr ordered.
  assert (resolveTemplate svc (setTemplate None b)
          = resolveTemplate svc (setTemplate (Some "") b)) as Hsame
    by (unfold resolveTemplate; simpl; now rewrite or_empty_absent).
  split; [exact Hsame|]. split.
  { unfold prepareChatBody, filledMessages. now rewrite Hsame. }
  assert (resolveTemplate (registerTemplate svc t) (setTemplate None b)
          = {| sp_id := Some "";
               sp_systemPrompt := own _ (systemPrompt t);
               sp_userPrompt := own _ (userPrompt t);
               sp_model := ownOr _ (model t) "gpt-3.5-turbo";
               sp_temperature := ownOr _ (temperature t) (Qmake 8 10);
               sp_top_p := own _ (top_p t);
               sp_n := own _ (n t);
               sp_max_tokens := ownOr _ (max_tokens t) (Qmake 200 1);
               sp_presence_penalty := own _ (presence_penalty t);
               sp_frequency_penalty := own _ (frequency_penalty t);
               sp_logit_bias := own _ (logit_bias t) |}) as Hresolved.
  { unfold resolveTemplate, registerTemplate.
    cbn [templates chat_template setTemplate].
    change (or_empty None) with "". rewrite <- Hid at 1.
    rewrite lookup_insert_eq. unfold spread, defaultTemplate, over.
    cbn [sp_id sp_systemPrompt sp_userPrompt sp_model sp_temperature sp_top_p
         sp_n sp_max_tokens sp_presence_penalty sp_frequency_penalty
         sp_logit_bias].
    rewrite Hid. subst own ownOr. cbv beta.
    f_equal;
      match goal with
      | |- context [match ?p with _ => _ end] => now destruct p
      end. }
  split; [exact Hresolved|].
  unfold prepareChatBody. cbv zeta. rewrite filledMessages_order, Hresolved.
  cbn [sp_id sp_systemPrompt sp_userPrompt sp_model sp_temperature sp_top_p
       sp_n sp_max_tokens sp_presence_penalty sp_frequency_penalty
       sp_logit_bias chat_inputs chat_messages chat_stream chat_user setTemplate].
  fold ordered. destruct ordered; reflexivity.
Qed.

End ChatBody.

(** ** The dispatcher and the adapters *)

Section Dispatch.
Context {Blob ReadableStream Request : Type}.
Variable I : @Imports Blob ReadableStream.
Implicit Types (svc : @LLMService Blob Request)
  (opts : @LLMServiceHandleOptions Request) (w : @World Blob).

(** [handle] once its three checks are passed: the request goes to the
    handler its tag names. *)
Lemma handle_routes svc opts a w :
  isAllowed svc opts = true ->
  openaiApiKey svc <> "" ->
  action (body opts) = Some a ->
  actions svc = [] \/ includes a (actions svc) = true ->
  handle I svc opts w =
    (if String.eqb a "chat" then chat I svc (asChatOptions (body opts))
     else if String.eqb a "transcribe"
          then transcribe I svc (asTranscribeOptions (body opts))
     else if String.eqb a "embed" then embed I svc (asEmbedOptions (body opts))
     else if String.eqb a "speak" then speak I svc (asSpeakOptions (body opts))
     else throw (notSupported a)) w.
Proof.
  intros Hallowed Hkey Haction Hlist. unfold handle.
  rewrite Hallowed, Haction. simpl.
  destruct (String.eqb_spec (openaiApiKey svc) ""); [contradiction|].
  destruct Hlist as [-> | ->]; [reflexivity|].
  now rewrite andb_false_r.
Qed.

(** C6. A request that the authorization predicate rejects fails with
    status 405, whatever else is wrong with it: no credential, no [$action]
    tag, or an action outside the allow-list. Nothing is called or logged. *)
Theorem handle_not_allowed svc opts w :
  isAllowed svc opts = false ->
  handle I svc opts w = (Throw (ErrorResponse "Request not allowed" 405), w).
Proof. intros Hveto. unfold handle. now rewrite Hveto. Qed.

(** C5, as amended. A request whose [$action] is outside a non-empty
    allow-list fails in [handle] before any handler is invoked, so that no
    call is made and nothing is logged, even when the action has a handler:
    with status 400 when the authorization predicate accepts the request, and
    with status 405 when the predicate rejects it. *)
Theorem handle_off_allow_list svc opts a w :
  action (body opts) = Some a ->
  actions svc <> [] ->
  includes a (actions svc) = false ->
  let e := if negb (isAllowed svc opts) then notAllowed
           else if String.eqb (openaiApiKey svc) "" then keyRequired
           else notSupported a in
  handle I svc opts w = (Throw e, w) /\
  status_of e = Some (if isAllowed svc opts then 400 else 405)%Z.
Proof.
  intros Haction Hlist Hout e. subst e. unfold handle.
  destruct (isAllowed svc opts); simpl; [|split; reflexivity].
  destruct (String.eqb (openaiApiKey svc) ""); [split; reflexivity|].
  rewrite Haction, Hout.
  destruct (actions svc); [contradiction|]. split; reflexivity.
Qed.

(** C1, as amended. For a request that passes the authorization predicate,
    the OpenAI credential is the only credential [handle] checks, and it
    checks it for every action: without it the request fails with the 400
    configuration error, a speak request included. With it, no credential
    check rejects the request: a request on the allow-list reaches its
    handler, and a speak request is sent to the synthesis endpoint with the
    ElevenLabs credential as it is, absent or not, in the [xi-api-key]
    header. *)
Theorem handle_credential_check svc opts w :
  isAllowed svc opts = true ->
  (openaiApiKey svc = "" ->
   handle I svc opts w
     = (Throw (ErrorResponse "OpenAI API key is required." 400), w)) /\
  (openaiApiKey svc <> "" ->
   forall a, action (body opts) = Some a ->
     actions svc = [] \/ includes a (actions svc) = true ->
     (a = "chat" ->
      handle I svc opts w = chat I svc (asChatOptions (body opts)) w) /\
     (a = "embed" ->
      handle I svc opts w = embed I svc (asEmbedOptions (body opts)) w) /\
     (a = "transcribe" ->
      handle I svc opts w
        = transcribe I svc (asTranscribeOptions (body opts)) w) /\
     (a = "speak" ->
      handle I svc opts w = speak I svc (asSpeakOptions (body opts)) w /\
      calls (snd (handle I svc opts w))
        = calls w ++ [speakCall I svc (asSpeakOptions (body opts))] /\
      fetch_headers (speakCall I svc (asSpeakOptions (body opts)))
        = [ ("Content-Type", "application/json");
            ("xi-api-key", elvenLabsApiKey svc) ])).
Proof.
  intros Hallowed. split.
  - intros Hkey. unfold handle. now rewrite Hallowed, Hkey.
  - intros Hkey a Haction Hlist.
    pose proof (handle_routes svc opts a w Hallowed Hkey Haction Hlist) as Hroute.
    split; [|split; [|split]]; intros ->; try exact Hroute.
    split; [exact Hroute|]. split; [|reflexivity].
    rewrite Hroute. simpl. unfold speak, bind, call_fetcher.
    destruct (fetcher svc _) as [response|e]; [|reflexivity].
    simpl. destruct (ok response); reflexivity.
Qed.

Lemma promptMessage_falsy (r : string) (p : option string) data :
  truthy_string p = false -> promptMessage I r p data = [].
Proof.
  destruct p as [text|]; simpl; [|reflexivity].
  now destruct (String.eqb text "").
Qed.

Lemma prepareChatBody_empty svc (b : LLMServiceChatOptions) :
  default [] (chat_messages b) = [] ->
  truthy_string (sp_systemPrompt (resolveTemplate svc b)) = false ->
  truthy_string (sp_userPrompt (resolveTemplate svc b)) = false ->
  prepareChatBody I svc b = Throw emptyMessageList.
Proof.
  intros Hnone Hsys Husr. unfold prepareChatBody. cbv zeta.
  rewrite filledMessages_order, Hnone.
  now rewrite !promptMessage_falsy by assumption.
Qed.

(** C2. A chat request with no explicit message (the list empty or absent)
    whose resolved template has neither a system prompt nor a user prompt
    fails with the 400 validation error, and the fetcher is not invoked: the
    chat handler throws it with the world unchanged. Through [handle] the
    request always fails with the world unchanged, and with that same error
    once the request is past the authorization, credential and allow-list
    checks. *)
Theorem chat_without_messages_rejected svc (b : LLMServiceChatOptions) w :
  default [] (chat_messages b) = [] ->
  truthy_string (sp_systemPrompt (resolveTemplate svc b)) = false ->
  truthy_string (sp_userPrompt (resolveTemplate svc b)) = false ->
  let rejection :=
    ErrorResponse "Empty message list. Please provide at least one message!" 400 in
  chat I svc b w = (Throw rejection, w) /\
  forall opts,
    action (body opts) = Some "chat" ->
    asChatOptions (body opts) = b ->
    (exists e, handle I svc opts w = (Throw e, w)) /\
    (isAllowed svc opts = true ->
     openaiApiKey svc <> "" ->
     actions svc = [] \/ includes "chat" (actions svc) = true ->
     handle I svc opts w = (Throw rejection, w)).
Proof.
  intros Hnone Hsys Husr rejection.
  assert (chat I svc b w = (Throw rejection, w)) as Hchat.
  { unfold chat, bind, lift.
    now rewrite (prepareChatBody_empty svc b Hnone Hsys Husr). }
  split; [exact Hchat|]. intros opts Haction Hview.
  assert (isAllowed svc opts = true ->
          openaiApiKey svc <> "" ->
          actions svc = [] \/ includes "chat" (actions svc) = true ->
          handle I svc opts w = (Throw rejection, w)) as Hpast.
  { intros Hallowed Hkey Hlist.
    rewrite (handle_routes svc opts "chat" w Hallowed Hkey Haction Hlist).
    simpl. now rewrite Hview. }
  split; [|exact Hpast].
  destruct (isAllowed svc opts) eqn:Hallowed.
  - destruct (String.eqb_spec (openaiApiKey svc) "") as [Hkey|Hkey].
    + exists keyRequired. unfold handle. rewrite Hallowed, Hkey. reflexivity.
    + destruct (actions svc) as [|x l] eqn:Hactions.
      * eexists. apply Hpast; auto.
      * destruct (includes "chat" (x :: l)) eqn:Hin.
        -- eexists. apply Hpast; auto.
        -- exists (notSupported "chat"). unfold handle.
           rewrite Hallowed, Haction, Hactions, Hin. simpl.
           destruct (String.eqb_spec (openaiApiKey svc) ""); [contradiction|].
           reflexivity.
  - exists notAllowed. unfold handle. now rewrite Hallowed.
Qed.

(** C8. A chat request that is not streamed, for which the upstream
    endpoint answers with a non-success status, is rejected with an error
    whose message is the text of the upstream response; no result is
    returned. The one call made is the chat-completions call. *)
Theorem chat_upstream_failure svc (b : LLMServiceChatOptions) pb response w :
  prepareChatBody I svc b = Return pb ->
  truthy_bool (pb_stream pb) = false ->
  fetcher svc (chatCall I svc pb) = Return response ->
  ok response = false ->
  let w' := called (chatCall I svc pb) (if debug svc then logged pb w else w) in
  chat I svc b w = (Throw (Error (text response)), w') /\
  message_of (Error (text response)) = text response /\
  forall opts,
    isAllowed svc opts = true ->
    openaiApiKey svc <> "" ->
    action (body opts) = Some "chat" ->
    actions svc = [] \/ includes "chat" (actions svc) = true ->
    asChatOptions (body opts) = b ->
    handle I svc opts w = (Throw (Error (text response)), w').
Proof.
  intros Hbody Hplain Hfetch Hfail w'.
  assert (chat I svc b w = (Throw (Error (text response)), w')) as Hchat.
  { unfold chat, bind, lift, console_log, ret, call_fetcher, throw.
    rewrite Hbody. subst w'.
    destruct (debug svc); rewrite Hplain, Hfetch, Hfail; reflexivity. }
  split; [exact Hchat|]. split; [reflexivity|].
  intros opts Hallowed Hkey Haction Hlist Hview.
  rewrite (handle_routes svc opts "chat" w Hallowed Hkey Haction Hlist).
  simpl. now rewrite Hview.
Qed.

(** C9. An embed request is posted to the embeddings endpoint with the fixed
    model [text-embedding-ada-002]: the call depends on the request's [input]
    and [user] only, so a [model] in the request is ignored. On success the
    result is the upstream's [data] under the fixed key [embeddings]. *)
Theorem embed_fixed_model svc (o : LLMServiceEmbedOptions) response parsed data w :
  fetcher svc (embedCall I svc o) = Return response ->
  ok response = true ->
  json response = Return parsed ->
  destructure_data parsed = Return data ->
  fetch_body (embedCall I svc o)
    = EmbedJson (embed_input o) (embed_user o) "text-embedding-ada-002" /\
  (forall requested : option string,
     embedCall I svc {| embed_input := embed_input o;
                        embed_user := embed_user o;
                        embed_model := requested |}
       = embedCall I svc o) /\
  embed I svc o w
    = (Return (ResultJson (JObject [ ("embeddings", data) ])),
       called (embedCall I svc o) w).
Proof.
  intros Hfetch Hok Hjson Hdata. split; [reflexivity|]. split; [reflexivity|].
  unfold embed, bind, lift, call_fetcher, ret.
  now rewrite Hfetch, Hok, Hjson, Hdata.
Qed.

End Dispatch.

(** ** Worked examples on a concrete service *)

(** A speak request to a service without the OpenAI credential is rejected
    with the 400 configuration error although the ElevenLabs credential is
    configured; and a speak request to a service without the ElevenLabs
    credential is not rejected: it is sent, with an empty [xi-api-key], and
    its result is returned. *)
Lemma speak_credentials_counterexample :
  handle sampleImports (sampleService "" "xi-key" [] true upstreamOk)
    (sampleRequest (speakBody "hello")) freshWorld
  = (Throw (ErrorResponse "OpenAI API key is required." 400), freshWorld)
  /\
  handle sampleImports (sampleService "sk-key" "" [] true upstreamOk)
    (sampleRequest (speakBody "hello")) freshWorld
  = (Return (ResultJson
       (JObject [ ("audioUrl", JString "data:audio/mpeg;base64,audio-bytes") ])),
     {| calls := [ {|
          fetch_url :=
            "https://api.elevenlabs.io/v1/text-to-speech/21m00Tcm4TlvDq8ikWAM";
          fetch_method := "POST";
          fetch_headers := [ ("Content-Type", "application/json");
                             ("xi-api-key", "") ];
          fetch_body := SpeakJson (Some "hello") "eleven_monolingual_v1" None;
        |} ];
        console := [] |}).
Proof. split; reflexivity. Qed.

Lemma handle_credential_check_witness :
  handle sampleImports (sampleService "sk-key" "" [] true upstreamOk)
    (sampleRequest (speakBody "hello")) freshWorld
  = speak sampleImports (sampleService "sk-key" "" [] true upstreamOk)
      (asSpeakOptions (speakBody "hello")) freshWorld.
Proof.
  destruct (handle_credential_check sampleImports
              (sampleService "sk-key" "" [] true upstreamOk)
              (sampleRequest (speakBody "hello")) freshWorld eq_refl)
    as [_ Hpresent].
  destruct (Hpresent ltac:(discriminate) "speak" eq_refl (or_introl eq_refl))
    as (_ & _ & _ & Hspeak).
  destruct (Hspeak eq_refl) as [Hroute _]. exact Hroute.
Defined.

Lemma chat_without_messages_rejected_witness :
  chat sampleImports (sampleService "sk-key" "" [] true upstreamOk)
    (chatOptions (Some []) (Some "unregistered") None) freshWorld
  = (Throw (ErrorResponse
              "Empty message list. Please provide at least one message!" 400),
     freshWorld).
Proof.
  apply (chat_without_messages_rejected sampleImports
           (sampleService "sk-key" "" [] true upstreamOk)
           (chatOptions (Some []) (Some "unregistered") None) freshWorld);
    reflexivity.
Defined.

Lemma prepareChatBody_unknown_template_witness :
  prepareChatBody sampleImports
    (registerTemplate (sampleService "sk-key" "" [] true upstreamOk)
       (sampleTemplate "t1" (Some "You are {{name}}")))
    (chatOptions (Some [ {| role := "user"; content := "hi {{name}}";
                            user := Some "u1" |} ])
       (Some "t2") (Some {[ "name" := InString "Bot" ]}))
  = Return {|
      pb_messages := [ {| role := "user"; content := "hi {{name}}";
                          user := Some "u1" |} ];
      pb_stream := None;
      pb_user := None;
      pb_model := Some "gpt-3.5-turbo";
      pb_temperature := Some (Qmake 8 10);
      pb_top_p := None;
      pb_n := None;
      pb_max_tokens := Some (Qmake 200 1);
      pb_presence_penalty := None;
      pb_frequency_penalty := None;
      pb_logit_bias := None;
    |}.
Proof.
  apply (prepareChatBody_unknown_template sampleImports
           (registerTemplate (sampleService "sk-key" "" [] true upstreamOk)
              (sampleTemplate "t1" (Some "You are {{name}}")))
           (chatOptions (Some [ {| role := "user"; content := "hi {{name}}";
                                   user := Some "u1" |} ])
              (Some "t2") (Some {[ "name" := InString "Bot" ]}))).
  vm_compute. reflexivity.
Defined.

(** The scenario of the spec: template [t1] with the system prompt
    [You are {{name}}], inputs [{name: "Bot"}] and no explicit message. *)
Example prepareChatBody_scenario :
  prepareChatBody sampleImports
    (registerTemplate (sampleService "sk-key" "" [] true upstreamOk)
       (sampleTemplate "t1" (Some "You are {{name}}")))
    (chatOptions None (Some "t1") (Some {[ "name" := InString "Bot" ]}))
  = Return {|
      pb_messages := [ {| role := "system"; content := "You are Bot";
                          user := None |} ];
      pb_stream := None;
      pb_user := None;
      pb_model := Some "gpt-3.5-turbo";
      pb_temperature := Some (Qmake 8 10);
      pb_top_p := None;
      pb_n := None;
      pb_max_tokens := Some (Qmake 200 1);
      pb_presence_penalty := None;
      pb_frequency_penalty := None;
      pb_logit_bias := None;
    |}.
Proof. vm_compute. reflexivity. Qed.

(** An action outside the allow-list, sent by a caller the authorization
    predicate rejects, fails with 405 and not with 400. *)
Lemma handle_off_allow_list_counterexample :
  includes "embed" ["chat"] = false /\
  handle sampleImports (sampleService "sk-key" "" ["chat"] false upstreamOk)
    (sampleRequest (embedBody "hi" None)) freshWorld
  = (Throw (ErrorResponse "Request not allowed" 405), freshWorld).
Proof. split; reflexivity. Qed.

(** The scenario of the spec: allow-list [["chat"]] and an embed request. *)
Lemma handle_off_allow_list_witness :
  exists message,
    handle sampleImports (sampleService "sk-key" "" ["chat"] true upstreamOk)
      (sampleRequest (embedBody "hi" None)) freshWorld
    = (Throw (ErrorResponse message 400), freshWorld).
Proof.
  destruct (handle_off_allow_list sampleImports
              (sampleService "sk-key" "" ["chat"] true upstreamOk)
              (sampleRequest (embedBody "hi" None)) "embed" freshWorld
              eq_refl ltac:(discriminate) eq_refl) as [Hfail _].
  eexists. exact Hfail.
Defined.

Lemma handle_not_allowed_witness :
  handle sampleImports (sampleService "" "" ["chat"] false upstreamOk)
    (sampleRequest emptyBody) freshWorld
  = (Throw (ErrorResponse "Request not allowed" 405), freshWorld).
Proof.
  apply (handle_not_allowed sampleImports
           (sampleService "" "" ["chat"] false upstreamOk)
           (sampleRequest emptyBody) freshWorld).
  reflexivity.
Defined.

Lemma chat_upstream_failure_witness :
  chat sampleImports (sampleService "sk-bad" "" [] true upstreamDenied)
    (chatOptions (Some [ {| role := "user"; content := "hi"; user := None |} ])
       None None) freshWorld
  = (Throw (Error "Incorrect API key provided"),
     {| calls := [ {|
          fetch_url := "https://api.openai.com/v1/chat/completions";
          fetch_method := "POST";
          fetch_headers := [ ("Content-Type", "application/json");
                             ("Authorization", "Bearer sk-bad") ];
          fetch_body := ChatJson {|
            pb_messages := [ {| role := "user"; content := "hi"; user := None |} ];
            pb_stream := None;
            pb_user := None;
            pb_model := Some "gpt-3.5-turbo";
            pb_temperature := Some (Qmake 8 10);
            pb_top_p := None;
            pb_n := None;
            pb_max_tokens := Some (Qmake 200 1);
            pb_presence_penalty := None;
            pb_frequency_penalty := None;
            pb_logit_bias := None;
          |};
        |} ];
        console := [] |}).
Proof.
  refine (proj1 (chat_upstream_failure sampleImports
                   (sampleService "sk-bad" "" [] true upstreamDenied)
                   (chatOptions
                      (Some [ {| role := "user"; content := "hi"; user := None |} ])
                      None None)
                   _ upstreamDenied freshWorld _ _ _ _));
    reflexivity.
Defined.

Lemma embed_fixed_model_witness :
  embed sampleImports (sampleService "sk-key" "" [] true upstreamOk)
    (asEmbedOptions (embedBody "hi" (Some "text-embedding-3-large"))) freshWorld
  = (Return (ResultJson
       (JObject [ ("embeddings",
                   JArray [ JObject [ ("index", JNumber (Qmake 0 1)) ] ]) ])),
     {| calls := [ {|
          fetch_url := "https://api.openai.com/v1/embeddings";
          fetch_method := "POST";
          fetch_headers := [ ("Content-Type", "application/json");
                             ("Authorization", "Bearer sk-key") ];
          fetch_body := EmbedJson (Some (InputText "hi")) None
                          "text-embedding-ada-002";
        |} ];
        console := [] |}).
Proof.
  refine (proj2 (proj2 (embed_fixed_model sampleImports
                          (sampleService "sk-key" "" [] true upstreamOk)
                          (asEmbedOptions
                             (embedBody "hi" (Some "text-embedding-3-large")))
                          upstreamOk _ _ freshWorld _ _ _ _)));
    reflexivity.
Defined.

Lemma absent_template_id_is_empty_id_witness :
  prepareChatBody sampleImports
    (registerTemplate (sampleService "sk-key" "" [] true upstreamOk)
       (sampleTemplate "" (Some "Always on {{name}}")))
    (setTemplate None
       (chatOptions (Some [ {| role := "user"; content := "hi"; user := None |} ])
          (Some "t1") (Some {[ "name" := InString "duty" ]})))
  = Return {|
      pb_messages := [ {| role := "system"; content := "Always on duty";
                          user := None |};
                       {| role := "user"; content := "hi"; user := None |} ];
      pb_stream := None;
      pb_user := None;
      pb_model := Some "gpt-3.5-turbo";
      pb_temperature := Some (Qmake 8 10);
      pb_top_p := None;
      pb_n := None;
      pb_max_tokens := Some (Qmake 200 1);
      pb_presence_penalty := None;
      pb_frequency_penalty := None;
      pb_logit_bias := None;
    |}.
Proof.
  destruct (absent_template_id_is_empty_id sampleImports
              (sampleService "sk-key" "" [] true upstreamOk)
              (chatOptions
                 (Some [ {| role := "user"; content := "hi"; user := None |} ])
                 (Some "t1") (Some {[ "name" := InString "duty" ]}))
              (sampleTemplate "" (Some "Always on {{name}}")) eq_refl)
    as (_ & _ & _ & Hprepared).
  rewrite Hprepared. vm_compute. reflexivity.
Defined.

(** A template registered under the empty id answers a chat request that
    names no template. *)
Example prepareChatBody_default_template :
  prepareChatBody sampleImports
    (registerTemplate (sampleService "sk-key" "" [] true upstreamOk)
       (sampleTemplate "" (Some "Always on")))
    (chatOptions None None None)
  = Return {|
      pb_messages := [ {| role := "system"; content := "Always on";
                          user := None |} ];
      pb_stream := None;
      pb_user := None;
      pb_model := Some "gpt-3.5-turbo";
      pb_temperature := Some (Qmake 8 10);
      pb_top_p := None;
      pb_n := None;
      pb_max_tokens := Some (Qmake 200 1);
      pb_presence_penalty := None;
      pb_frequency_penalty := None;
      pb_logit_bias := None;
    |}.
Proof. vm_compute. reflexivity. Qed.

(** ** Further properties of the service *)

Section Registry.
Context {Blob ReadableStream Request : Type}.
Variable I : @Imports Blob ReadableStream.
Implicit Types (svc : @LLMService Blob Request) (b : LLMServiceChatOptions)
  (opts : @LLMServiceHandleOptions Request) (w : @World Blob).

(** X1. Registering two templates under the same id leaves the service as if
    only the second had been registered: the later registration wins. *)
Theorem registerTemplate_last_wins svc (t1 t2 : LLMServiceTemplate) :
  id t1 = id t2 ->
  registerTemplate (registerTemplate svc t1) t2 = registerTemplate svc t2 /\
  templates (registerTemplate (registerTemplate svc t1) t2) !! id t1 = Some t2.
Proof.
  intros Hid. unfold registerTemplate. cbn [templates openaiApiKey
    elvenLabsApiKey fetcher debug actions isAllowed].
  rewrite Hid, insert_insert_eq. split; [reflexivity|].
  now rewrite lookup_insert_eq.
Qed.

Lemma resolveTemplate_register_other svc (t : LLMServiceTemplate) b :
  or_empty (chat_template b) <> id t ->
  resolveTemplate (registerTemplate svc t) b = resolveTemplate svc b.
Proof.
  intros Hother. unfold resolveTemplate, registerTemplate. cbn [templates].
  rewrite lookup_insert_ne by congruence. reflexivity.
Qed.

Lemma chat_register_other svc (t : LLMServiceTemplate) b w :
  or_empty (chat_template b) <> id t ->
  chat I (registerTemplate svc t) b w = chat I svc b w.
Proof.
  intros Hother.
  assert (prepareChatBody I (registerTemplate svc t) b = prepareChatBody I svc b)
    as Hsame.
  { unfold prepareChatBody, filledMessages.
    now rewrite (resolveTemplate_register_other svc t b Hother). }
  unfold chat. now rewrite Hsame.
Qed.

(** X2. Registering a template changes nothing for the requests that do not
    name it: [handle] answers every request that is not a chat request for
    that template id exactly as before the registration. *)
Theorem registerTemplate_other_requests svc (t : LLMServiceTemplate) opts w :
  (action (body opts) = Some "chat" -> or_empty (template (body opts)) <> id t) ->
  handle I (registerTemplate svc t) opts w = handle I svc opts w.
Proof.
  intros Hother. unfold handle.
  change (isAllowed (registerTemplate svc t)) with (isAllowed svc).
  change (openaiApiKey (registerTemplate svc t)) with (openaiApiKey svc).
  change (actions (registerTemplate svc t)) with (actions svc).
  destruct (negb (isAllowed svc opts)); [reflexivity|].
  destruct (String.eqb (openaiApiKey svc) ""); [reflexivity|].
  destruct (action (body opts)) as [a|]; [|reflexivity].
  destruct (_ && _); [reflexivity|].
  destruct (String.eqb_spec a "chat") as [->|_].
  - apply chat_register_other. now apply Hother.
  - reflexivity.
Qed.

(** X4. A chat request cannot choose the generation parameters: two requests
    that name the same template are prepared with the same model,
    temperature, [top_p], [n], [max_tokens], penalties and [logit_bias],
    whatever their messages, inputs, [stream] and [user]. *)
Theorem prepareChatBody_parameters svc b1 b2 pb1 pb2 :
  or_empty (chat_template b1) = or_empty (chat_template b2) ->
  prepareChatBody I svc b1 = Return pb1 ->
  prepareChatBody I svc b2 = Return pb2 ->
  pb_model pb1 = pb_model pb2 /\
  pb_temperature pb1 = pb_temperature pb2 /\
  pb_top_p pb1 = pb_top_p pb2 /\
  pb_n pb1 = pb_n pb2 /\
  pb_max_tokens pb1 = pb_max_tokens pb2 /\
  pb_presence_penalty pb1 = pb_presence_penalty pb2 /\
  pb_frequency_penalty pb1 = pb_frequency_penalty pb2 /\
  pb_logit_bias pb1 = pb_logit_bias pb2.
Proof.
  intros Hsame. unfold prepareChatBody. cbv zeta.
  assert (resolveTemplate svc b1 = resolveTemplate svc b2) as ->
    by (unfold resolveTemplate; now rewrite Hsame).
  destruct (Nat.eqb (length (filledMessages I svc b1)) 0); [discriminate|].
  destruct (Nat.eqb (length (filledMessages I svc b2)) 0); [discriminate|].
  intros [= <-] [= <-]. cbn. repeat split.
Qed.

End Registry.

Section Routing.
Context {Blob ReadableStream Request : Type}.
Variable I : @Imports Blob ReadableStream.
Implicit Types (svc : @LLMService Blob Request)
  (opts : @LLMServiceHandleOptions Request) (w : @World Blob).

(** X5. A request without the [$action] key, from an accepted caller to a
    service that has its OpenAI credential, fails with status 400 before the
    allow-list is consulted and before any handler runs. *)
Theorem handle_missing_action svc opts w :
  isAllowed svc opts = true ->
  openaiApiKey svc <> "" ->
  action (body opts) = None ->
  handle I svc opts w
    = (Throw (ErrorResponse "`handle` expects a key $action in the body" 400), w).
Proof.
  intros Hallowed Hkey Hnone. unfold handle. rewrite Hallowed, Hnone. simpl.
  now destruct (String.eqb_spec (openaiApiKey svc) "").
Qed.

Lemma not_handled (a : string) :
  ~ In a handledActions ->
  String.eqb a "chat" = false /\ String.eqb a "transcribe" = false /\
  String.eqb a "embed" = false /\ String.eqb a "speak" = false.
Proof.
  intros Hout. unfold handledActions in Hout. simpl in Hout.
  repeat split; apply String.eqb_neq; intros ->; apply Hout; auto.
Qed.

(** X6. From an accepted caller, to a service that has its OpenAI
    credential, an action tag that is not one of [chat], [transcribe],
    [embed] and [speak] is rejected with status 400 and the message naming
    the action, whether the allow-list is empty, contains the tag or does
    not: listing a tag in [actions] cannot enable an action that has no
    handler. *)
Theorem handle_unknown_action svc opts (a : string) w :
  isAllowed svc opts = true ->
  openaiApiKey svc <> "" ->
  action (body opts) = Some a ->
  ~ In a handledActions ->
  handle I svc opts w
    = (Throw (ErrorResponse
                ("Action " +:+ dquote +:+ a +:+ dquote +:+ " is not supported")
                400), w).
Proof.
  intros Hallowed Hkey Haction Hout.
  destruct (not_handled a Hout) as (Hc & Ht & He & Hs).
  unfold handle. rewrite Hallowed, Haction. simpl.
  destruct (String.eqb_spec (openaiApiKey svc) ""); [contradiction|].
  destruct (_ && _); [reflexivity|].
  now rewrite Hc, Ht, He, Hs.
Qed.

Lemma prepareChatBody_stream svc (b : LLMServiceChatOptions) pb :
  prepareChatBody I svc b = Return pb -> pb_stream pb = chat_stream b.
Proof.
  unfold prepareChatBody. cbv zeta.
  destruct (Nat.eqb _ 0); [discriminate|]. now intros [= <-].
Qed.






End Routing.

Section Adapters.
Context {Blob ReadableStream Request : Type}.
Variable I : @Imports Blob ReadableStream.
Implicit Types (svc : @LLMService Blob Request)
  (opts : @LLMServiceHandleOptions Request) (w : @World Blob).

(** X8. [transcribe] needs the audio: a request whose [audioUrl] is absent or
    empty fails with status 400, whatever its language and prompt, and
    nothing is decoded or sent; so does a transcribe request that [handle]
    routes to it. *)
Theorem transcribe_requires_audioUrl svc (o : LLMServiceTranscribeOptions) w :
  truthy_string (transcribe_audioUrl o) = false ->
  transcribe I svc o w
    = (Throw (ErrorResponse "'audioUrl' is required" 400), w) /\
  forall opts,
    isAllowed svc opts = true ->
    openaiApiKey svc <> "" ->
    action (body opts) = Some "transcribe" ->
    actions svc = [] \/ includes "transcribe" (actions svc) = true ->
    asTranscribeOptions (body opts) = o ->
    handle I svc opts w
      = (Throw (ErrorResponse "'audioUrl' is required" 400), w).
Proof.
  intros Hmissing.
  assert (transcribe I svc o w
          = (Throw (ErrorResponse "'audioUrl' is required" 400), w)) as Hdirect
    by (unfold transcribe; now rewrite Hmissing).
  split; [exact Hdirect|].
  intros opts Hallowed Hkey Haction Hlist Hview.
  rewrite (handle_routes I svc opts "transcribe" w Hallowed Hkey Haction Hlist).
  simpl. now rewrite Hview.
Qed.

(** X9. When the data URL of a transcribe request cannot be decoded, the
    failure of [dataURLToBlob] is the failure of the request, and no call is
    made. *)
Theorem transcribe_decode_failure svc (o : LLMServiceTranscribeOptions)
    (url : string) (e : Thrown) w :
  transcribe_audioUrl o = Some url ->
  url <> "" ->
  dataURLToBlob I url = Throw e ->
  transcribe I svc o w = (Throw e, w).
Proof.
  intros Hurl Hfull Hdecode. unfold transcribe, bind, lift. rewrite Hurl. simpl.
  destruct (String.eqb_spec url ""); [contradiction|]. simpl.
  now rewrite Hdecode.
Qed.

Lemma in_optional_field (key name : string) (field : option string)
    (v : @FormValue Blob) :
  In (key, v)
     (if truthy_string field then [ (name, FormText (default "" field)) ] else [])
  <-> key = name /\ exists s, field = Some s /\ s <> "" /\ v = FormText s.
Proof.
  destruct field as [s|]; simpl.
  - destruct (String.eqb_spec s ""); simpl.
    + split; [contradiction|]. intros (_ & s' & [= <-] & Hs & _). contradiction.
    + split.
      * intros [[= <- <-]|[]]. eauto 6.
      * intros (-> & s' & [= <-] & _ & ->). now left.
  - split; [contradiction|]. intros (_ & s' & Hs & _). discriminate.
Qed.

(** X10. The form [transcribe] posts: the model is [whisper-1] and nothing
    else, whatever the request; the [language] field is there exactly when
    the request has a non-empty language, with that value, and likewise the
    [prompt] field. No empty text field is ever sent. *)
Theorem transcribeForm_fields (audioBlob : Blob)
    (o : LLMServiceTranscribeOptions) :
  let form := transcribeForm audioBlob o in
  (forall v, In ("model", v) form <-> v = FormText "whisper-1") /\
  (forall v, In ("file", v) form <-> v = FormFile audioBlob "recording.wav") /\
  (forall v, In ("language", v) form
             <-> exists s, transcribe_language o = Some s /\ s <> ""
                           /\ v = FormText s) /\
  (forall v, In ("prompt", v) form
             <-> exists s, transcribe_prompt o = Some s /\ s <> ""
                           /\ v = FormText s) /\
  (forall k s, In (k, FormText s) form -> s <> "").
Proof.
  intros form. subst form. unfold transcribeForm.
  repeat split.
  - rewrite !in_app_iff, !in_optional_field. simpl.
    intros [[[=]|[[= <-]|[]]]|[[[=] _]|[[=] _]]]. reflexivity.
  - intros ->. rewrite in_app_iff. left. simpl. auto.
  - rewrite !in_app_iff, !in_optional_field. simpl.
    intros [[[= <-]|[[=]|[]]]|[[[=] _]|[[=] _]]]. reflexivity.
  - intros ->. rewrite in_app_iff. left. simpl. auto.
  - rewrite !in_app_iff, !in_optional_field. simpl.
    intros [[[=]|[[=]|[]]]|[[_ H]|[[=] _]]]. exact H.
  - intros H. rewrite !in_app_iff, !in_optional_field. right. left. now split.
  - rewrite !in_app_iff, !in_optional_field. simpl.
    intros [[[=]|[[=]|[]]]|[[[=] _]|[_ H]]]. exact H.
  - intros H. rewrite !in_app_iff, !in_optional_field. right. right. now split.
  - intros k s. rewrite !in_app_iff, !in_optional_field. simpl.
    intros [[[=]|[[= <- <-]|[]]]|[(_ & s' & _ & Hs & [= <-])|(_ & s' & _ & Hs & [= <-])]];
      [discriminate|exact Hs|exact Hs].
Qed.

(** X11. With an upstream that answers every call with a non-success
    status, [embed], [speak] and [transcribe] (once its audio is decoded)
    each make their one call and are rejected with an error carrying the
    text of the upstream response. *)
Theorem adapters_upstream_failure svc response w :
  (forall c, fetcher svc c = Return response) ->
  ok response = false ->
  (forall o, embed I svc o w
             = (Throw (Error (text response)), called (embedCall I svc o) w)) /\
  (forall o, speak I svc o w
             = (Throw (Error (text response)), called (speakCall I svc o) w)) /\
  (forall o url audioBlob,
     transcribe_audioUrl o = Some url -> url <> "" ->
     dataURLToBlob I url = Return audioBlob ->
     exists c,
       fetch_url c = AUDIO_TRANSCRIPTIONS_API_URL I /\
       fetch_body c = FormData (transcribeForm audioBlob o) /\
       transcribe I svc o w = (Throw (Error (text response)), called c w)).
Proof.
  intros Hupstream Hfail. split; [|split].
  - intros o. unfold embed, bind, call_fetcher. now rewrite Hupstream, Hfail.
  - intros o. unfold speak, bind, call_fetcher. now rewrite Hupstream, Hfail.
  - intros o url audioBlob Hurl Hfull Hdecode.
    unfold transcribe, bind, lift, call_fetcher. rewrite Hurl. simpl.
    destruct (String.eqb_spec url ""); [contradiction|]. simpl.
    rewrite Hdecode, Hupstream, Hfail. simpl.
    eexists. split; [|split; [|reflexivity]]; reflexivity.
Qed.

(** X15. With an upstream that answers every call with success, a chat
    request that is not streamed and a transcribe request return the text of
    the upstream response as it is, and a speak request returns the audio of
    the response as a data URL under the key [audioUrl]; each after its one
    call, the chat call carrying the prepared body and the OpenAI credential
    as a bearer token. *)
Theorem adapters_upstream_success svc response w :
  (forall c, fetcher svc c = Return response) ->
  ok response = true ->
  (forall b pb,
     prepareChatBody I svc b = Return pb ->
     truthy_bool (pb_stream pb) = false ->
     chat I svc b w
       = (Return (ResultText (text response)),
          called (chatCall I svc pb) (if debug svc then logged pb w else w)) /\
     fetch_body (chatCall I svc pb) = ChatJson pb /\
     In ("Authorization", "Bearer " +:+ openaiApiKey svc)
        (fetch_headers (chatCall I svc pb))) /\
  (forall o url audioBlob,
     transcribe_audioUrl o = Some url -> url <> "" ->
     dataURLToBlob I url = Return audioBlob ->
     fst (transcribe I svc o w) = Return (ResultText (text response))) /\
  (forall o,
     fst (speak I svc o w)
       = Return (ResultJson
                   (JObject [ ("audioUrl",
                               JString (readAsDataURL I (blob response))) ]))).
Proof.
  intros Hupstream Hok. split; [|split].
  - intros b pb Hpb Hplain. split; [|split; [reflexivity|simpl; auto]].
    unfold chat, bind, lift, console_log, ret, call_fetcher.
    rewrite Hpb, Hplain.
    destruct (debug svc); now rewrite Hupstream, Hok.
  - intros o url audioBlob Hurl Hfull Hdecode.
    unfold transcribe, bind, lift, call_fetcher. rewrite Hurl. simpl.
    destruct (String.eqb_spec url ""); [contradiction|]. simpl.
    now rewrite Hdecode, Hupstream, Hok.
  - intros o. unfold speak, bind, call_fetcher. now rewrite Hupstream, Hok.
Qed.

Lemma embed_world svc (o : LLMServiceEmbedOptions) w :
  snd (embed I svc o w) = called (embedCall I svc o) w.
Proof.
  unfold embed, bind, lift, call_fetcher.
  destruct (fetcher svc _) as [response|]; [|reflexivity].
  destruct (negb (ok response)); [reflexivity|].
  destruct (json response) as [parsed|]; [|reflexivity].
  now destruct (destructure_data parsed).
Qed.

Lemma speak_world svc (o : LLMServiceSpeakOptions) w :
  snd (speak I svc o w) = called (speakCall I svc o) w.
Proof.
  unfold speak, bind, call_fetcher.
  destruct (fetcher svc _) as [response|]; [|reflexivity].
  now destruct (negb (ok response)).
Qed.

(** X12. [embed] and [speak] validate nothing: whatever the options, even
    without [input] or [text], each makes exactly one call through the
    fetcher, the one to its own endpoint. *)
Theorem embed_speak_always_call svc w :
  (forall o, snd (embed I svc o w) = called (embedCall I svc o) w) /\
  (forall o, snd (speak I svc o w) = called (speakCall I svc o) w).
Proof. split; intros o; [apply embed_world|apply speak_world]. Qed.

End Adapters.

Section Effects.
Context {Blob ReadableStream Request : Type}.
Variable I : @Imports Blob ReadableStream.
Implicit Types (svc : @LLMService Blob Request)
  (opts : @LLMServiceHandleOptions Request) (w : @World Blob).

Lemma chat_plain_calls svc (b : LLMServiceChatOptions) w :
  truthy_bool (chat_stream b) = false ->
  calls (snd (chat I svc b w)) = calls w \/
  exists pb, prepareChatBody I svc b = Return pb /\
             calls (snd (chat I svc b w)) = calls w ++ [ chatCall I svc pb ].
Proof.
  intros Hplain. unfold chat, bind, lift.
  destruct (prepareChatBody I svc b) as [pb|e] eqn:Hpb; [|now left].
  right. exists pb. split; [reflexivity|].
  rewrite (prepareChatBody_stream I svc b pb Hpb), Hplain.
  unfold call_fetcher, console_log, ret.
  destruct (debug svc); destruct (fetcher svc _) as [response|];
    try destruct (negb (ok response)); reflexivity.
Qed.

Lemma transcribe_calls svc (o : LLMServiceTranscribeOptions) w :
  calls (snd (transcribe I svc o w)) = calls w \/
  exists c, fetch_url c = AUDIO_TRANSCRIPTIONS_API_URL I /\
            fetch_method c = "POST" /\
            calls (snd (transcribe I svc o w)) = calls w ++ [ c ].
Proof.
  unfold transcribe, bind, lift, call_fetcher.
  destruct (negb _); [now left|].
  destruct (dataURLToBlob I _) as [audioBlob|]; [|now left].
  right. eexists. split; [|split]; [| |destruct (fetcher svc _) as [response|];
    try destruct (negb (ok response)); reflexivity]; reflexivity.
Qed.

(** X13. No retries: a request that is not a streamed chat makes at most one
    call through the fetcher, a POST to the endpoint of its action (chat
    completions for [chat], audio transcriptions for [transcribe], embeddings
    for [embed], the text-to-speech URL of the requested or default voice
    for [speak]), and leaves the earlier calls of the log in place. *)
Theorem handle_at_most_one_call svc opts w :
  ~ (action (body opts) = Some "chat" /\ stream (body opts) = Some true) ->
  calls (snd (handle I svc opts w)) = calls w \/
  exists a c,
    action (body opts) = Some a /\
    calls (snd (handle I svc opts w)) = calls w ++ [ c ] /\
    fetch_method c = "POST" /\
    ((a = "chat" /\ fetch_url c = CHAT_COMPLETIONS_API_URL I) \/
     (a = "transcribe" /\ fetch_url c = AUDIO_TRANSCRIPTIONS_API_URL I) \/
     (a = "embed" /\ fetch_url c = EMBEDDINGS_API_URL I) \/
     (a = "speak" /\
      fetch_url c
        = getTextToSpeechApiUrl I
            (default "21m00Tcm4TlvDq8ikWAM" (voice_id (body opts))))).
Proof.
  intros Hplain. unfold handle.
  destruct (negb (isAllowed svc opts)); [now left|].
  destruct (String.eqb (openaiApiKey svc) ""); [now left|].
  destruct (action (body opts)) as [a|] eqn:Haction; [|now left].
  destruct (_ && _); [now left|].
  destruct (String.eqb a "chat") eqn:Echat.
  { apply String.eqb_eq in Echat. subst a.
    assert (truthy_bool (chat_stream (asChatOptions (body opts))) = false) as Hoff.
    { simpl. destruct (stream (body opts)) as [[|]|]; try reflexivity.
      exfalso. apply Hplain. now split. }
    destruct (chat_plain_calls svc _ w Hoff) as [Hnone|(pb & _ & Hone)];
      [now left|].
    right. exists "chat", (chatCall I svc pb). split; [reflexivity|].
    split; [exact Hone|]. split; [reflexivity|]. left. now split. }
  destruct (String.eqb a "transcribe") eqn:Etranscribe.
  { apply String.eqb_eq in Etranscribe.
    destruct (transcribe_calls svc (asTranscribeOptions (body opts)) w)
      as [Hnone|(c & Hurl & Hmethod & Hone)]; [now left|].
    right. exists a, c. split; [reflexivity|]. split; [exact Hone|].
    split; [exact Hmethod|]. right. left. now split. }
  destruct (String.eqb a "embed") eqn:Eembed.
  { apply String.eqb_eq in Eembed.
    right. exists a, (embedCall I svc (asEmbedOptions (body opts))).
    rewrite (embed_world I svc _ w).
    split; [reflexivity|]. split; [reflexivity|]. split; [reflexivity|].
    right. right. left. now split. }
  destruct (String.eqb a "speak") eqn:Espeak.
  { apply String.eqb_eq in Espeak.
    right. exists a, (speakCall I svc (asSpeakOptions (body opts))).
    rewrite (speak_world I svc _ w).
    split; [reflexivity|]. split; [reflexivity|]. split; [reflexivity|].
    right. right. right. now split. }
  now left.
Qed.

End Effects.

Section Configuration.
Context {Blob ReadableStream Request : Type}.
Variable I : @Imports Blob ReadableStream.
Implicit Types (svc : @LLMService Blob Request)
  (opts : @LLMServiceHandleOptions Request) (w : @World Blob).

(** X14. The two credentials are kept apart. The ElevenLabs credential is
    used by [speak] only: for every request whose action is not [speak],
    [handle] behaves the same whatever that credential is. The OpenAI
    credential never reaches the speech endpoint: the call [speak] makes, and
    so its outcome, is the same whatever that credential is, and its headers
    carry no [Authorization] entry. *)
Theorem credentials_kept_apart svc (key : string) opts
    (o : LLMServiceSpeakOptions) w :
  (action (body opts) <> Some "speak" ->
   handle I (withElevenLabsKey key svc) opts w = handle I svc opts w) /\
  speakCall I (withOpenaiKey key svc) o = speakCall I svc o /\
  speak I (withOpenaiKey key svc) o w = speak I svc o w /\
  ~ In "Authorization" (map fst (fetch_headers (speakCall I svc o))).
Proof.
  split; [|split; [reflexivity|split; [reflexivity|]]].
  - intros Hother. unfold handle.
    change (isAllowed (withElevenLabsKey key svc)) with (isAllowed svc).
    change (openaiApiKey (withElevenLabsKey key svc)) with (openaiApiKey svc).
    change (actions (withElevenLabsKey key svc)) with (actions svc).
    destruct (negb (isAllowed svc opts)); [reflexivity|].
    destruct (String.eqb (openaiApiKey svc) ""); [reflexivity|].
    destruct (action (body opts)) as [a|]; [|reflexivity].
    destruct (_ && _); [reflexivity|].
    destruct (String.eqb a "chat"); [reflexivity|].
    destruct (String.eqb a "transcribe"); [reflexivity|].
    destruct (String.eqb a "embed"); [reflexivity|].
    destruct (String.eqb_spec a "speak") as [Heq|_]; [|reflexivity].
    exfalso. apply Hother. now rewrite Heq.
  - simpl. intros [H|[H|[]]]; discriminate.
Qed.

(** X16. The [debug] flag only adds to the log: for a chat request that is
    not streamed, the outcome and the calls are the same with the flag on
    and off; with the flag off nothing is logged, and with the flag on the
    prepared body, and nothing else, is logged, once, when there is one. *)
Theorem debug_only_logs svc (b : LLMServiceChatOptions) w :
  truthy_bool (chat_stream b) = false ->
  let quiet := chat I (withDebug false svc) b w in
  let verbose := chat I (withDebug true svc) b w in
  fst verbose = fst quiet /\
  calls (snd verbose) = calls (snd quiet) /\
  console (snd quiet) = console w /\
  console (snd verbose)
    = console w ++ match prepareChatBody I svc b with
                   | Return pb => [ pb ]
                   | Throw _ => []
                   end.
Proof.
  intros Hplain quiet verbose. subst quiet verbose.
  unfold chat, bind, lift.
  change (prepareChatBody I (withDebug true svc) b)
    with (prepareChatBody I svc b).
  change (prepareChatBody I (withDebug false svc) b)
    with (prepareChatBody I svc b).
  destruct (prepareChatBody I svc b) as [pb|e] eqn:Hpb; simpl.
  2: { now rewrite app_nil_r. }
  rewrite (prepareChatBody_stream I svc b pb Hpb), Hplain.
  unfold call_fetcher.
  change (fetcher (withDebug true svc)) with (fetcher svc).
  change (fetcher (withDebug false svc)) with (fetcher svc).
  change (chatCall I (withDebug true svc) pb) with (chatCall I svc pb).
  change (chatCall I (withDebug false svc) pb) with (chatCall I svc pb).
  destruct (fetcher svc (chatCall I svc pb)) as [response|];
    try destruct (negb (ok response)); simpl; auto.
Qed.

(** X17. A service created without an OpenAI credential (none, or the empty
    string) and without an authorization predicate answers every request
    with the 400 configuration error and never calls upstream. *)
Theorem createLLMService_without_key (fetch : @Fetcher Blob)
    (options : @CreateLLMServiceOptions Blob Request) opts w :
  default "" (opt_openaiApiKey options) = "" ->
  opt_isAllowed options = None ->
  handle I (createLLMService fetch options) opts w
    = (Throw (ErrorResponse "OpenAI API key is required." 400), w).
Proof.
  intros Hkey Hpred. unfold handle, createLLMService. simpl.
  now rewrite Hpred, Hkey.
Qed.

(** X18. A service created with an OpenAI credential and neither an
    allow-list nor an authorization predicate serves the four actions to
    every caller: each request tagged [chat], [transcribe], [embed] or
    [speak] is handed to the handler of that name. *)
Theorem createLLMService_serves_all (fetch : @Fetcher Blob)
    (options : @CreateLLMServiceOptions Blob Request) (key : string) opts w :
  opt_openaiApiKey options = Some key ->
  key <> "" ->
  opt_actions options = None ->
  opt_isAllowed options = None ->
  let svc := createLLMService fetch options in
  (action (body opts) = Some "chat" ->
   handle I svc opts w = chat I svc (asChatOptions (body opts)) w) /\
  (action (body opts) = Some "transcribe" ->
   handle I svc opts w = transcribe I svc (asTranscribeOptions (body opts)) w) /\
  (action (body opts) = Some "embed" ->
   handle I svc opts w = embed I svc (asEmbedOptions (body opts)) w) /\
  (action (body opts) = Some "speak" ->
   handle I svc opts w = speak I svc (asSpeakOptions (body opts)) w).
Proof.
  intros Hkey Hfull Hlist Hpred svc.
  assert (forall a, action (body opts) = Some a ->
            handle I svc opts w =
            (if String.eqb a "chat" then chat I svc (asChatOptions (body opts))
             else if String.eqb a "transcribe"
                  then transcribe I svc (asTranscribeOptions (body opts))
             else if String.eqb a "embed"
                  then embed I svc (asEmbedOptions (body opts))
             else if String.eqb a "speak"
                  then speak I svc (asSpeakOptions (body opts))
             else throw (notSupported a)) w) as Hroute.
  { intros a Haction. apply handle_routes; [| |exact Haction|].
    - subst svc. unfold createLLMService. simpl. now rewrite Hpred.
    - subst svc. unfold createLLMService. simpl. now rewrite Hkey.
    - left. subst svc. unfold createLLMService. simpl. now rewrite Hlist. }
  repeat split; intros Haction; now rewrite (Hroute _ Haction).
Qed.

End Configuration.

(** ** The documentation pager *)

Section PagerProperties.

Lemma NavItemWithChildren_nested_ind (P : NavItemWithChildren -> Prop) :
  (forall t h, P (NavItem t h None)) ->
  (forall t h children, Forall P children -> P (NavItem t h (Some children))) ->
  forall link, P link.
Proof.
  intros Hnone Hsome. fix IH 1. intros [t h [children|]]; [|apply Hnone].
  apply Hsome. induction children as [|c children IHchildren]; constructor.
  - apply IH.
  - apply IHchildren.
Qed.

Lemma reduce_flat_map (links flat : list NavItemWithChildren) :
  fold_left (fun flat link => flat ++ flattenLink link) links flat
  = flat ++ flat_map flattenLink links.
Proof.
  revert flat. induction links as [|link links IH]; intros flat; simpl.
  - now rewrite app_nil_r.
  - rewrite IH. now rewrite <- app_assoc.
Qed.

Lemma flatten_flat_map links : flatten links = flat_map flattenLink links.
Proof. unfold flatten. now rewrite reduce_flat_map. Qed.

(** The recursive call [flatten(link.items)]. *)
Lemma flattenLink_children t h c children :
  flattenLink (NavItem t h (Some (c :: children))) = flatten (c :: children).
Proof. reflexivity. Qed.

Lemma flattenLink_leaf link : isLeaf link = true -> flattenLink link = [ link ].
Proof. destruct link as [t h [[|c children]|]]; [reflexivity|discriminate|reflexivity]. Qed.

Lemma flattenLink_leaves link :
  Forall (fun l => isLeaf l = true) (flattenLink link).
Proof.
  induction link as [t h|t h children IH] using NavItemWithChildren_nested_ind.
  - now repeat constructor.
  - destruct children as [|c children]; [now repeat constructor|].
    rewrite flattenLink_children, flatten_flat_map.
    induction IH as [|x l Hx _ IHl]; simpl; [constructor|].
    apply Forall_app. now split.
Qed.

Lemma flatten_leaf_list links :
  Forall (fun l => isLeaf l = true) links -> flatten links = links.
Proof.
  rewrite flatten_flat_map. induction 1 as [|x l Hx _ IH]; simpl; [reflexivity|].
  now rewrite (flattenLink_leaf x Hx), IH.
Qed.

(** X19. [flatten] keeps the links without children, in their order, and
    replaces each link with children by its flattened children: the
    flattening of a list that starts with a link is that link, when it has no
    children, or else the flattening of its children, followed by the
    flattening of the rest. So the result holds no link with children, a
    list of links without children is left as it is, and flattening
    distributes over concatenation. *)
Theorem flatten_only_leaves (links more : list NavItemWithChildren)
    (link : NavItemWithChildren) :
  flatten [] = [] /\
  flatten (link :: links)
    = (if isLeaf link then [ link ] else flatten (default [] (nav_items link)))
      ++ flatten links /\
  Forall (fun l => isLeaf l = true) (flatten links) /\
  (Forall (fun l => isLeaf l = true) links -> flatten links = links) /\
  flatten (links ++ more) = flatten links ++ flatten more.
Proof.
  split; [reflexivity|]. split; [|split; [|split]].
  - rewrite !flatten_flat_map. simpl. f_equal.
    destruct link as [t h [[|c children]|]]; try reflexivity.
    cbn [isLeaf nav_items default]. rewrite <- flatten_flat_map.
    apply flattenLink_children.
  - rewrite flatten_flat_map. induction links as [|x l IH]; simpl; [constructor|].
    apply Forall_app. split; [apply flattenLink_leaves|exact IH].
  - apply flatten_leaf_list.
  - rewrite !flatten_flat_map. apply flat_map_app.
Qed.

(** X20. Flattening twice is flattening once. *)
Theorem flatten_idempotent (links : list NavItemWithChildren) :
  flatten (flatten links) = flatten links.
Proof.
  apply flatten_leaf_list. rewrite flatten_flat_map.
  induction links as [|x l IH]; simpl; [constructor|].
  apply Forall_app. split; [apply flattenLink_leaves|exact IH].
Qed.

Lemma findIndex_absent {A : Type} (pred : A -> bool) (arr : list A) :
  (forall x, In x arr -> pred x = false) -> findIndex pred arr = (-1)%Z.
Proof.
  induction arr as [|x arr IH]; intros Hnone; simpl; [reflexivity|].
  rewrite (Hnone x) by now left.
  rewrite IH by (intros y Hy; apply Hnone; now right). reflexivity.
Qed.

Lemma findIndex_first {A : Type} (pred : A -> bool) (pre : list A) (y : A)
    (post : list A) :
  (forall x, In x pre -> pred x = false) -> pred y = true ->
  findIndex pred (pre ++ y :: post) = Z.of_nat (length pre).
Proof.
  induction pre as [|x pre IH]; intros Hnone Hy; simpl.
  - now rewrite Hy.
  - rewrite (Hnone x) by now left.
    rewrite IH by (try intros z Hz; try apply Hnone; auto; now right).
    destruct (Z.ltb_spec (Z.of_nat (length pre)) 0); lia.
Qed.

(** Reading the array [[null, ...links, null]]. *)
Lemma slotAt_head (links : list NavItemWithChildren) :
  slotAt ((None :: map Some links) ++ [ None ]) 0 = SlotNull.
Proof. reflexivity. Qed.

Lemma slotAt_link (links : list NavItemWithChildren) (i : nat) :
  slotAt ((None :: map Some links) ++ [ None ]) (Z.of_nat (S i))
  = match nth_error links i with
    | Some link => SlotLink link
    | None => if Nat.eqb i (length links) then SlotNull else SlotUndefined
    end.
Proof.
  unfold slotAt. destruct (Z.ltb_spec (Z.of_nat (S i)) 0); [lia|].
  rewrite Nat2Z.id. simpl.
  destruct (Nat.lt_ge_cases i (length links)) as [Hin|Hout].
  - rewrite nth_error_app1 by now rewrite length_map.
    rewrite nth_error_map.
    destruct (nth_error links i) eqn:Hnth; [reflexivity|].
    apply nth_error_None in Hnth. lia.
  - rewrite nth_error_app2 by now rewrite length_map.
    rewrite length_map.
    replace (nth_error links i) with (@None NavItemWithChildren)
      by (symmetry; now apply nth_error_None).
    destruct (Nat.eqb_spec i (length links)) as [->|Hne].
    + now rewrite Nat.sub_diag.
    + destruct (i - length links) as [|k] eqn:Hk; [lia|]. simpl.
      now destruct k.
Qed.

Lemma activeIndex_found (before after : list NavItemWithChildren)
    (link : NavItemWithChildren) (slug : string) :
  nav_href link = Some slug ->
  (forall l, In l before -> nav_href l <> Some slug) ->
  findIndex (isActive slug)
    ((None :: map Some (before ++ link :: after)) ++ [ None ])
  = Z.of_nat (S (length before)).
Proof.
  intros Hlink Hbefore.
  replace ((None :: map Some (before ++ link :: after)) ++ [ None ])
    with ((None :: map Some before) ++ Some link :: (map Some after ++ [ None ]))
    by (rewrite map_app; simpl; now rewrite <- !app_assoc).
  rewrite findIndex_first.
  - simpl. now rewrite length_map.
  - intros [l|] [Hin|Hin]; try discriminate; try reflexivity.
    apply in_map_iff in Hin as (l' & [= <-] & Hl').
    simpl. specialize (Hbefore l' Hl').
    destruct (nav_href l') as [h|]; [|reflexivity].
    apply String.eqb_neq. congruence.
  - simpl. rewrite Hlink. apply String.eqb_refl.
Qed.

(** X21. For a document that the navigation does not list, the pager has
    no previous link, as [undefined], and no next link, as [null]. *)
Theorem getPagerForDoc_unlisted (sidebarNav : list NavItemWithChildren)
    (slug : string) :
  (forall link, In link (flatten sidebarNav) -> nav_href link <> Some slug) ->
  getPagerForDoc sidebarNav slug = {| prev := SlotUndefined; next := SlotNull |}.
Proof.
  intros Hunlisted. unfold getPagerForDoc. cbv zeta.
  rewrite findIndex_absent.
  - rewrite length_app, length_cons, length_map. simpl length.
    replace (negb (-1 =? Z.of_nat (S (length (flatten sidebarNav)) + 1) - 1)%Z)
      with true by (symmetry; apply negb_true_iff, Z.eqb_neq; lia).
    reflexivity.
  - intros [l|] Hin; [|reflexivity].
    assert (In l (flatten sidebarNav)) as Hl.
    { simpl in Hin. destruct Hin as [Hin|Hin]; [discriminate|].
      apply in_app_iff in Hin as [Hin|[Hin|[]]]; [|discriminate].
      now apply in_map_iff in Hin as (l' & [= <-] & Hl'). }
    simpl. specialize (Hunlisted l Hl).
    destruct (nav_href l) as [h|]; [|reflexivity].
    apply String.eqb_neq. congruence.
Qed.

Lemma pager_of_listed (sidebarNav before after : list NavItemWithChildren)
    (link : NavItemWithChildren) (slug : string) :
  flatten sidebarNav = before ++ link :: after ->
  nav_href link = Some slug ->
  (forall l, In l before -> nav_href l <> Some slug) ->
  getPagerForDoc sidebarNav slug
  = {| prev := match rev before with
               | [] => SlotNull
               | p :: _ => SlotLink p
               end;
       next := match after with
               | [] => SlotNull
               | n :: _ => SlotLink n
               end |}.
Proof.
  intros Hflat Hlink Hbefore. unfold getPagerForDoc. cbv zeta.
  rewrite Hflat, (activeIndex_found before after link slug Hlink Hbefore).
  replace (negb (Z.of_nat (S (length before)) =? 0)%Z) with true
    by (symmetry; apply negb_true_iff, Z.eqb_neq; lia).
  f_equal.
  - destruct (rev before) as [|p rest] eqn:Hrev.
    + apply (f_equal (@rev _)) in Hrev. rewrite rev_involutive in Hrev.
      subst before. reflexivity.
    + apply (f_equal (@rev _)) in Hrev. rewrite rev_involutive in Hrev.
      subst before. simpl rev. rewrite length_app. simpl length.
      replace (Z.of_nat (S (length (rev rest) + 1)) - 1)%Z
        with (Z.of_nat (S (length (rev rest)))) by lia.
      rewrite slotAt_link. rewrite <- app_assoc.
      rewrite nth_error_app2 by lia. now rewrite Nat.sub_diag.
  - match goal with
    | |- context [Z.eqb ?x ?y] => destruct (Z.eqb_spec x y) as [Heq|_]
    end.
    { exfalso. revert Heq.
      rewrite length_app, length_cons, length_map, length_app. simpl length. lia. }
    cbn [negb].
    replace (Z.of_nat (S (length before)) + 1)%Z
      with (Z.of_nat (S (S (length before)))) by lia.
    rewrite slotAt_link.
    replace (before ++ link :: after) with ((before ++ [ link ]) ++ after)
      by now rewrite <- app_assoc.
    assert (length (before ++ [ link ]) = S (length before)) as Hlen
      by (rewrite length_app; simpl; lia).
    destruct after as [|n after].
    + rewrite app_nil_r.
      replace (nth_error (before ++ [ link ]) (S (length before)))
        with (@None NavItemWithChildren)
        by (symmetry; apply nth_error_None; lia).
      now rewrite Hlen, Nat.eqb_refl.
    + rewrite nth_error_app2 by lia. now rewrite Hlen, Nat.sub_diag.
Qed.

(** X22. For a listed document the pager gives the neighbours of its first
    occurrence in the flattened navigation: the link before it, or [null]
    for the first link, and the link after it, or [null] for the last. *)
Theorem getPagerForDoc_neighbours
    (sidebarNav before after : list NavItemWithChildren)
    (link : NavItemWithChildren) (slug : string) :
  flatten sidebarNav = before ++ link :: after ->
  nav_href link = Some slug ->
  (forall l, In l before -> nav_href l <> Some slug) ->
  getPagerForDoc sidebarNav slug
  = {| prev := match rev before with
               | [] => SlotNull
               | p :: _ => SlotLink p
               end;
       next := match after with
               | [] => SlotNull
               | n :: _ => SlotLink n
               end |}.
Proof. apply pager_of_listed. Qed.

(** X23. Next and previous are inverse on neighbouring documents, at their
    first occurrence: when two links with different hrefs follow one another
    in the flattened navigation and no earlier link has either href, the
    next link of the first document is the second and the previous link of
    the second document is the first. *)
Theorem getPagerForDoc_next_prev
    (sidebarNav before after : list NavItemWithChildren)
    (one other : NavItemWithChildren) (slug slug' : string) :
  flatten sidebarNav = before ++ one :: other :: after ->
  nav_href one = Some slug ->
  nav_href other = Some slug' ->
  slug <> slug' ->
  (forall l, In l before ->
             nav_href l <> Some slug /\ nav_href l <> Some slug') ->
  next (getPagerForDoc sidebarNav slug) = SlotLink other /\
  prev (getPagerForDoc sidebarNav slug') = SlotLink one.
Proof.
  intros Hflat Hone Hother Hdiff Hbefore. split.
  - rewrite (pager_of_listed sidebarNav before (other :: after) one slug);
      [reflexivity|exact Hflat|exact Hone|].
    intros l Hl. now apply Hbefore.
  - rewrite (pager_of_listed sidebarNav (before ++ [ one ]) after other slug').
    + simpl. now rewrite rev_app_distr.
    + now rewrite <- app_assoc.
    + exact Hother.
    + intros l [Hl|[<-|[]]]%in_app_iff.
      * now apply Hbefore.
      * congruence.
Qed.

End PagerProperties.

(** ** More worked examples *)

Lemma registerTemplate_last_wins_witness :
  templates
    (registerTemplate
       (registerTemplate (sampleService "sk-key" "" [] true upstreamOk)
          (sampleTemplate "t1" (Some "first")))
       (sampleTemplate "t1" (Some "second"))) !! "t1"
  = Some (sampleTemplate "t1" (Some "second")).
Proof.
  exact (proj2 (registerTemplate_last_wins
                  (sampleService "sk-key" "" [] true upstreamOk)
                  (sampleTemplate "t1" (Some "first"))
                  (sampleTemplate "t1" (Some "second")) eq_refl)).
Defined.

Lemma registerTemplate_other_requests_witness :
  handle sampleImports
    (registerTemplate (sampleService "sk-key" "" [] true upstreamOk)
       (sampleTemplate "t1" (Some "You are {{name}}")))
    (sampleRequest (chatBody [ hello ] (Some "t2"))) freshWorld
  = handle sampleImports (sampleService "sk-key" "" [] true upstreamOk)
      (sampleRequest (chatBody [ hello ] (Some "t2"))) freshWorld.
Proof.
  apply (registerTemplate_other_requests sampleImports
           (sampleService "sk-key" "" [] true upstreamOk)
           (sampleTemplate "t1" (Some "You are {{name}}"))
           (sampleRequest (chatBody [ hello ] (Some "t2"))) freshWorld).
  intros _. discriminate.
Defined.

Lemma prepareChatBody_parameters_witness :
  exists pb1 pb2,
    prepareChatBody sampleImports (sampleService "sk-key" "" [] true upstreamOk)
      (chatOptions (Some [ hello ]) None None) = Return pb1 /\
    prepareChatBody sampleImports (sampleService "sk-key" "" [] true upstreamOk)
      (chatOptions (Some [ hello; hello ]) (Some "")
         (Some {[ "name" := InString "Bot" ]})) = Return pb2 /\
    pb_model pb1 = pb_model pb2 /\ pb_max_tokens pb1 = pb_max_tokens pb2.
Proof.
  eexists. eexists. split; [reflexivity|]. split; [reflexivity|].
  destruct (prepareChatBody_parameters sampleImports
              (sampleService "sk-key" "" [] true upstreamOk)
              (chatOptions (Some [ hello ]) None None)
              (chatOptions (Some [ hello; hello ]) (Some "")
                 (Some {[ "name" := InString "Bot" ]}))
              _ _ eq_refl eq_refl eq_refl)
    as (Hmodel & _ & _ & _ & Htokens & _).
  split; [exact Hmodel|exact Htokens].
Defined.

Lemma handle_missing_action_witness :
  handle sampleImports (sampleService "sk-key" "" [ "chat" ] true upstreamOk)
    (sampleRequest (taggedBody None)) freshWorld
  = (Throw (ErrorResponse "`handle` expects a key $action in the body" 400),
     freshWorld).
Proof.
  apply (handle_missing_action sampleImports
           (sampleService "sk-key" "" [ "chat" ] true upstreamOk)
           (sampleRequest (taggedBody None)) freshWorld);
    [reflexivity|discriminate|reflexivity].
Defined.

Lemma handle_unknown_action_witness :
  includes "translate" [ "translate" ] = true /\
  exists message,
    handle sampleImports
      (sampleService "sk-key" "" [ "translate" ] true upstreamOk)
      (sampleRequest (taggedBody (Some "translate"))) freshWorld
    = (Throw (ErrorResponse message 400), freshWorld).
Proof.
  split; [reflexivity|]. eexists.
  apply (handle_unknown_action sampleImports
           (sampleService "sk-key" "" [ "translate" ] true upstreamOk)
           (sampleRequest (taggedBody (Some "translate"))) "translate"
           freshWorld); [reflexivity|discriminate|reflexivity|].
  unfold handledActions. simpl. intros [H|[H|[H|[H|[]]]]]; discriminate.
Defined.


Lemma transcribe_requires_audioUrl_witness :
  handle sampleImports (sampleService "sk-key" "" [] true upstreamOk)
    (sampleRequest (transcribeBody (Some "") (Some "en"))) freshWorld
  = (Throw (ErrorResponse "'audioUrl' is required" 400), freshWorld).
Proof.
  apply (proj2 (transcribe_requires_audioUrl sampleImports
                  (sampleService "sk-key" "" [] true upstreamOk)
                  (asTranscribeOptions (transcribeBody (Some "") (Some "en")))
                  freshWorld eq_refl));
    [reflexivity|discriminate|reflexivity|now left|reflexivity].
Defined.

Lemma transcribe_decode_failure_witness :
  transcribe strictImports (sampleService "sk-key" "" [] true upstreamOk)
    (asTranscribeOptions (transcribeBody (Some "recording.wav") None))
    freshWorld
  = (Throw (TypeError "Invalid data URL"), freshWorld).
Proof.
  apply (transcribe_decode_failure strictImports
           (sampleService "sk-key" "" [] true upstreamOk)
           (asTranscribeOptions (transcribeBody (Some "recording.wav") None))
           "recording.wav" (TypeError "Invalid data URL") freshWorld);
    [reflexivity|discriminate|reflexivity].
Defined.

Lemma adapters_upstream_failure_witness :
  fst (speak sampleImports (sampleService "sk-key" "" [] true upstreamDenied)
         (asSpeakOptions (speakBody "hello")) freshWorld)
  = Throw (Error "Incorrect API key provided").
Proof.
  destruct (adapters_upstream_failure sampleImports
              (sampleService "sk-key" "" [] true upstreamDenied)
              upstreamDenied freshWorld (fun _ => eq_refl) eq_refl)
    as (_ & Hspeak & _).
  now rewrite Hspeak.
Defined.

Lemma handle_at_most_one_call_witness :
  length
    (calls (snd (handle sampleImports
                   (sampleService "sk-key" "" [] true upstreamOk)
                   (sampleRequest (embedBody "hi" None)) freshWorld))) <= 1.
Proof.
  destruct (handle_at_most_one_call sampleImports
              (sampleService "sk-key" "" [] true upstreamOk)
              (sampleRequest (embedBody "hi" None)) freshWorld)
    as [Hnone|(a & c & _ & Hone & _)].
  - intros [Hchat _]. discriminate.
  - rewrite Hnone. simpl. lia.
  - rewrite Hone. simpl. lia.
Defined.

Lemma credentials_kept_apart_witness :
  handle sampleImports
    (withElevenLabsKey "xi-key" (sampleService "sk-key" "" [] true upstreamOk))
    (sampleRequest (embedBody "hi" None)) freshWorld
  = handle sampleImports (sampleService "sk-key" "" [] true upstreamOk)
      (sampleRequest (embedBody "hi" None)) freshWorld.
Proof.
  apply (proj1 (credentials_kept_apart sampleImports
                  (sampleService "sk-key" "" [] true upstreamOk) "xi-key"
                  (sampleRequest (embedBody "hi" None))
                  (asSpeakOptions (speakBody "hello")) freshWorld)).
  discriminate.
Defined.

Lemma debug_only_logs_witness :
  length
    (console (snd (chat sampleImports
                     (withDebug true (sampleService "sk-key" "" [] true upstreamOk))
                     (chatOptions (Some [ hello ]) None None) freshWorld))) = 1.
Proof.
  destruct (debug_only_logs sampleImports
              (sampleService "sk-key" "" [] true upstreamOk)
              (chatOptions (Some [ hello ]) None None) freshWorld eq_refl)
    as (_ & _ & _ & Hlog).
  rewrite Hlog. reflexivity.
Defined.

Lemma createLLMService_without_key_witness :
  handle sampleImports (createLLMService (fun _ => Return upstreamOk) noOptions)
    (sampleRequest (speakBody "hello")) freshWorld
  = (Throw (ErrorResponse "OpenAI API key is required." 400), freshWorld).
Proof.
  apply (createLLMService_without_key sampleImports
           (fun _ => Return upstreamOk) noOptions
           (sampleRequest (speakBody "hello")) freshWorld); reflexivity.
Defined.

Lemma createLLMService_serves_all_witness :
  handle sampleImports
    (createLLMService (fun _ => Return upstreamOk) (keyOnly "sk-key"))
    (sampleRequest (embedBody "hi" None)) freshWorld
  = embed sampleImports
      (createLLMService (fun _ => Return upstreamOk) (keyOnly "sk-key"))
      (asEmbedOptions (embedBody "hi" None)) freshWorld.
Proof.
  destruct (createLLMService_serves_all sampleImports
              (fun _ => Return upstreamOk) (keyOnly "sk-key") "sk-key"
              (sampleRequest (embedBody "hi" None)) freshWorld
              eq_refl ltac:(discriminate) eq_refl eq_refl)
    as (_ & _ & Hembed & _).
  apply Hembed. reflexivity.
Defined.

Example flatten_sample :
  flatten sampleNav = [ pageIntro; pageInstall; pageHook; pageFaq ].
Proof. reflexivity. Qed.

Lemma getPagerForDoc_unlisted_witness :
  getPagerForDoc sampleNav "/docs/missing"
  = {| prev := SlotUndefined; next := SlotNull |}.
Proof.
  apply (getPagerForDoc_unlisted sampleNav "/docs/missing").
  intros link Hin. change (flatten sampleNav)
    with [ pageIntro; pageInstall; pageHook; pageFaq ] in Hin.
  destruct Hin as [<-|[<-|[<-|[<-|[]]]]]; discriminate.
Defined.

Lemma getPagerForDoc_neighbours_witness :
  getPagerForDoc sampleNav "/docs/installation"
  = {| prev := SlotLink pageIntro; next := SlotLink pageHook |}.
Proof.
  apply (getPagerForDoc_neighbours sampleNav [ pageIntro ] [ pageHook; pageFaq ]
           pageInstall "/docs/installation"); [reflexivity|reflexivity|].
  intros l [<-|[]]. discriminate.
Defined.

Lemma getPagerForDoc_next_prev_witness :
  next (getPagerForDoc sampleNav "/docs/installation") = SlotLink pageHook /\
  prev (getPagerForDoc sampleNav "/docs/api/usellm") = SlotLink pageInstall.
Proof.
  apply (getPagerForDoc_next_prev sampleNav [ pageIntro ] [ pageFaq ]
           pageInstall pageHook "/docs/installation" "/docs/api/usellm");
    [reflexivity|reflexivity|reflexivity|discriminate|].
  intros l [<-|[]]. split; discriminate.
Defined.

(** The first and the last page of the navigation. *)
Example getPagerForDoc_ends :
  getPagerForDoc sampleNav "/docs"
  = {| prev := SlotNull; next := SlotLink pageInstall |} /\
  getPagerForDoc sampleNav "/docs/faq"
  = {| prev := SlotLink pageHook; next := SlotNull |}.
Proof. split; reflexivity. Qed.

Lemma adapters_upstream_success_witness :
  fst (transcribe strictImports
         (sampleService "sk-key" "" [] true upstreamOk)
         (asTranscribeOptions
            (transcribeBody (Some "data:audio/wav;base64,UklGRg==") (Some "en")))
         freshWorld)
  = Return (ResultText "audio-bytes").
Proof.
  destruct (adapters_upstream_success strictImports
              (sampleService "sk-key" "" [] true upstreamOk)
              upstreamOk freshWorld (fun _ => eq_refl) eq_refl)
    as (_ & Htranscribe & _).
  apply (Htranscribe _ "data:audio/wav;base64,UklGRg=="
           "data:audio/wav;base64,UklGRg==");
    [reflexivity|discriminate|reflexivity].
Defined.
